(** * PyWebIO [pywebio/output.py]: a shallow embedding and its properties

    The module builds [output] and [output_ctl] instructions and hands them
    to a session's outbound queue.  Python objects are embedded as the
    inductive [pyval]; [dict]s with string keys are [gmap string pyval];
    the session registry, the outbound queues, the callback registry and the
    list objects a caller passes to [put_table] live in an explicit [world]
    that every operation threads through an exception monad.  Of
    [td_buttons] only the normalization it shares with [put_buttons],
    [_format_button], is embedded; its HTML rendering is not. *)

From Stdlib Require Import ZArith String Ascii List Lia DecimalString.
From stdpp Require Import base gmap strings list.

Set Warnings "-register-all".

(** ** Python values *)

Inductive pyval : Type :=
| VNone
| VBool (b : bool)
| VInt (z : Z)
| VStr (s : string)
| VBytes (bs : list Byte.byte)
| VTuple (items : list pyval)
| VList (items : list pyval)
| VDict (d : gmap string pyval).

(** ** Python [str] primitives used by the module

    A [str] is embedded as a Rocq [string]; a character is a code point in
    the range 0..255. *)

Module Py.

Definition nl : string := String "010"%char EmptyString.

(** Truthiness of a [str]: only the empty string is falsy. *)
Definition truthy_str (s : string) : bool :=
  match s with
  | EmptyString => false
  | String _ _ => true
  end.

(** Truthiness of an argument that is [None] or a [str]. *)
Definition truthy (o : option string) : bool :=
  match o with
  | None => false
  | Some s => truthy_str s
  end.

(** [if arg: then_ else: else_], for an argument that is [None] or a
    [str]; the branch taken when it is truthy receives the string. *)
Definition if_truthy {A : Type} (arg : option string)
    (then_ : string → A) (else_ : A) : A :=
  match arg with
  | Some s => if truthy_str s then then_ s else else_
  | None => else_
  end.

(** Truthiness of an argument that is [None] or a [list]. *)
Definition truthy_list {A : Type} (o : option (list A)) : bool :=
  match o with
  | None | Some [] => false
  | Some (_ :: _) => true
  end.

(** The line boundaries of [str.splitlines] among the code points 0..255:
    LF, VT, FF, CR, FS, GS, RS and NEL (CR LF counts as one boundary). *)
Definition is_linebreak (c : ascii) : bool :=
  let n := N_of_ascii c in
  ((n =? 10) || (n =? 11) || (n =? 12) || (n =? 13)
   || (n =? 28) || (n =? 29) || (n =? 30) || (n =? 133))%N.

Definition is_cr (c : ascii) : bool := (N_of_ascii c =? 13)%N.
Definition is_lf (c : ascii) : bool := (N_of_ascii c =? 10)%N.

(** [splitlines_from cur s]: the lines of [s], the first one prefixed by
    the pending text [cur]; no empty last line after a final boundary. *)
Fixpoint splitlines_from (cur s : string) : list string :=
  match s with
  | EmptyString =>
      match cur with
      | EmptyString => []
      | String _ _ => [cur]
      end
  | String c rest =>
      if is_linebreak c then
        cur :: match rest with
               | EmptyString => []
               | String c' rest' =>
                   if is_cr c && is_lf c'
                   then splitlines_from EmptyString rest'
                   else splitlines_from EmptyString rest
               end
      else splitlines_from (cur +:+ String c EmptyString) rest
  end.

(** [s.splitlines()] *)
Definition splitlines (s : string) : list string :=
  splitlines_from EmptyString s.

(** The characters [str.isspace] accepts among the code points 0..255. *)
Definition is_space (c : ascii) : bool :=
  let n := N_of_ascii c in
  (((9 <=? n) && (n <=? 13)) || ((28 <=? n) && (n <=? 32))
   || (n =? 133) || (n =? 160))%N.

(** [s.lstrip()] *)
Fixpoint lstrip (s : string) : string :=
  match s with
  | EmptyString => EmptyString
  | String c rest => if is_space c then lstrip rest else s
  end.

(** [sep.join(parts)] *)
Definition join (sep : string) (parts : list string) : string :=
  String.concat sep parts.

Fixpoint str_take (n : nat) (s : string) : string :=
  match n, s with
  | S n', String c rest => String c (str_take n' rest)
  | _, _ => EmptyString
  end.

Fixpoint str_drop (n : nat) (s : string) : string :=
  match n, s with
  | S n', String _ rest => str_drop n' rest
  | _, _ => s
  end.

(** A slice bound [k] on a sequence of length [len]: a negative bound
    counts from the end and is clipped at 0. *)
Definition slice_index (k : Z) (len : nat) : nat :=
  if (k <? 0)%Z then Z.to_nat (Z.max 0 (Z.of_nat len + k)) else Z.to_nat k.

(** [s[:k]] *)
Definition slice_to (k : Z) (s : string) : string :=
  str_take (slice_index k (String.length s)) s.

(** [s[k:]] *)
Definition slice_from (k : Z) (s : string) : string :=
  str_drop (slice_index k (String.length s)) s.

(** [s * n]; empty when [n <= 0]. *)
Definition str_repeat (s : string) (n : Z) : string :=
  String.concat EmptyString (repeat s (Z.to_nat n)).

(** [s.replace(old, new)] for a one-character [old]. *)
Fixpoint replace_char (old : ascii) (new s : string) : string :=
  match s with
  | EmptyString => EmptyString
  | String c rest =>
      if Ascii.eqb c old then new +:+ replace_char old new rest
      else String c (replace_char old new rest)
  end.

(** Iterating a [str] yields its one-character substrings. *)
Fixpoint chars (s : string) : list string :=
  match s with
  | EmptyString => []
  | String c rest => String c EmptyString :: chars rest
  end.

End Py.

(** ** [base64.b64encode], [base64.b64decode] and the ASCII codec

    Standard base64 (RFC 4648): every group of three bytes is read as a
    24-bit number and written as four 6-bit digits of the alphabet; a final
    group of one or two bytes is padded with [=]. *)

Module Base64.

Definition alphabet : string :=
  "ABCDEFGHIJKLMNOPQRSTUVWXYZabcdefghijklmnopqrstuvwxyz0123456789+/".

Definition pad : Byte.byte := byte_of_ascii "=".

Definition is_pad (b : Byte.byte) : bool := Byte.eqb b pad.

Definition byte_val (b : Byte.byte) : Z := Z.of_N (Byte.to_N b).

Definition byte_of_val (z : Z) : Byte.byte :=
  default Byte.x00 (Byte.of_N (Z.to_N z)).

(** The alphabet character of a 6-bit digit. *)
Definition enc_sextet (i : Z) : Byte.byte :=
  match String.get (Z.to_nat i) alphabet with
  | Some c => byte_of_ascii c
  | None => pad
  end.

Fixpoint index_of (c : ascii) (s : string) : option nat :=
  match s with
  | EmptyString => None
  | String c' rest =>
      if Ascii.eqb c c' then Some 0%nat else S <$> index_of c rest
  end.

(** The 6-bit digit of an alphabet character. *)
Definition dec_sextet (b : Byte.byte) : option Z :=
  Z.of_nat <$> index_of (ascii_of_byte b) alphabet.

Fixpoint b64encode (bs : list Byte.byte) : list Byte.byte :=
  match bs with
  | [] => []
  | [a] =>
      let n := (byte_val a * 16)%Z in
      [enc_sextet (n / 64); enc_sextet (n mod 64); pad; pad]
  | [a; b] =>
      let n := ((byte_val a * 256 + byte_val b) * 4)%Z in
      [enc_sextet (n / 4096); enc_sextet (n / 64 mod 64);
       enc_sextet (n mod 64); pad]
  | a :: b :: c :: rest =>
      let n := (byte_val a * 65536 + byte_val b * 256 + byte_val c)%Z in
      enc_sextet (n / 262144) :: enc_sextet (n / 4096 mod 64)
        :: enc_sextet (n / 64 mod 64) :: enc_sextet (n mod 64)
        :: b64encode rest
  end.

Fixpoint b64decode (cs : list Byte.byte) : option (list Byte.byte) :=
  match cs with
  | [] => Some []
  | c0 :: c1 :: c2 :: c3 :: rest =>
      s0 ← dec_sextet c0;
      s1 ← dec_sextet c1;
      if is_pad c3 then
        match rest with
        | [] =>
            if is_pad c2 then
              Some [byte_of_val ((s0 * 64 + s1) / 16)]
            else
              s2 ← dec_sextet c2;
              let n := ((s0 * 4096 + s1 * 64 + s2) / 4)%Z in
              Some [byte_of_val (n / 256); byte_of_val (n mod 256)]
        | _ :: _ => None
        end
      else
        s2 ← dec_sextet c2;
        s3 ← dec_sextet c3;
        tail ← b64decode rest;
        let n := (s0 * 262144 + s1 * 4096 + s2 * 64 + s3)%Z in
        Some (byte_of_val (n / 65536) :: byte_of_val (n / 256 mod 256)
                :: byte_of_val (n mod 256) :: tail)
  | _ => None
  end.

(** [bs.decode('ascii')]: fails on a byte above 127. *)
Fixpoint decode_ascii (bs : list Byte.byte) : option string :=
  match bs with
  | [] => Some EmptyString
  | b :: rest =>
      if (byte_val b <? 128)%Z
      then String (ascii_of_byte b) <$> decode_ascii rest
      else None
  end.

(** [s.encode('ascii')]: fails on a character above 127. *)
Fixpoint encode_ascii (s : string) : option (list Byte.byte) :=
  match s with
  | EmptyString => Some []
  | String c rest =>
      if (N_of_ascii c <? 128)%N
      then cons (byte_of_ascii c) <$> encode_ascii rest
      else None
  end.

(** [base64.b64decode(s)] on a [str] argument. *)
Definition b64decode_str (s : string) : option (list Byte.byte) :=
  encode_ascii s ≫= b64decode.

End Base64.

(** ** Exceptions, the world and the monad of operations *)

Inductive exn : Type :=
| AssertionError (msg : string)
| IndexError
| AttributeError
| TypeError
| UnicodeDecodeError.

Inductive result (A : Type) : Type :=
| Ok (a : A)
| Raise (e : exn).

Arguments Ok {A} a.
Arguments Raise {A} e.

(** A session handle and the address of a list object. *)
Definition session : Type := nat.
Definition loc : Type := nat.

(** A table cell is a scalar; [str] gives its text. *)
Inductive cell : Type :=
| CNone
| CBool (b : bool)
| CInt (z : Z)
| CStr (s : string).

(** A table row as [put_table] can meet it: a list of cells, a [dict] from
    column names to cells (in insertion order), or a [str]. *)
Inductive row : Type :=
| RList (cells : list cell)
| RDict (items : list (string * cell))
| RStr (s : string).

(** A click handler: an ordinary function or a coroutine function. *)
Inductive handler : Type :=
| PlainFunction (name : string)
| CoroutineFunction (name : string).

Record registration : Type := {
  reg_onclick : handler;
  reg_save : pyval;
  reg_mutex_mode : bool
}.

(** [active_ws] is [Global.active_ws]; [outbox] lists, oldest first, every
    message handed to a session by [add_server_msg]; [callbacks] is the
    callback registry; [lists] holds the list objects callers pass as
    table data. *)
Record world : Type := {
  active_ws : session;
  outbox : list (session * pyval);
  callbacks : list registration;
  lists : gmap loc (list row)
}.

Definition M (A : Type) : Type := world → result A * world.

#[global] Instance result_ret : MRet result := λ A a, Ok a.
#[global] Instance result_bind : MBind result := λ A B f m,
  match m with
  | Ok a => f a
  | Raise e => Raise e
  end.

#[global] Instance M_ret : MRet M := λ A a w, (Ok a, w).
#[global] Instance M_bind : MBind M := λ A B f m w,
  match m w with
  | (Ok a, w') => f a w'
  | (Raise e, w') => (Raise e, w')
  end.

Definition raise {A : Type} (e : exn) : M A := λ w, (Raise e, w).

Definition lift {A : Type} (r : result A) : M A := λ w, (r, w).

(** [assert cond, msg] *)
Definition assert_ (cond : bool) (msg : string) : result () :=
  if cond then Ok () else Raise (AssertionError msg).

Definition get_active_ws : M session := λ w, (Ok (active_ws w), w).

(** The world after [msg] joined the outbound queue of [ws]. *)
Definition enqueue (ws : session) (msg : pyval) (w : world) : world :=
  {| active_ws := active_ws w;
     outbox := outbox w ++ [(ws, msg)];
     callbacks := callbacks w;
     lists := lists w |}.

(** The world after [reg] joined the callback registry. *)
Definition add_callback (reg : registration) (w : world) : world :=
  {| active_ws := active_ws w;
     outbox := outbox w;
     callbacks := callbacks w ++ [reg];
     lists := lists w |}.

(** The world after the list object at [l] became [rows]. *)
Definition set_list (l : loc) (rows : list row) (w : world) : world :=
  {| active_ws := active_ws w;
     outbox := outbox w;
     callbacks := callbacks w;
     lists := <[l := rows]> (lists w) |}.

(** Modelled from the spec: the session method [add_server_msg], which is
    not part of [output.py]; it hands the envelope to the target session's
    outbound message queue. *)
Definition add_server_msg (ws : session) (msg : pyval) : M () := λ w,
  (Ok (), enqueue ws msg w).

(** [dict(command=command, spec=spec)] *)
Definition envelope (command : string) (spec : gmap string pyval) : pyval :=
  VDict {[ "command" := VStr command; "spec" := VDict spec ]}.

(** Modelled from the spec: [io_ctrl.send_msg], which is not part of
    [output.py]; it wraps [spec] in an envelope with the given command and
    delivers it to the currently active session. *)
Definition send_msg (cmd : string) (spec : gmap string pyval) : M () :=
  ws ← get_active_ws;
  add_server_msg ws (envelope cmd spec).

(** The token of the [n]-th registration. *)
Definition callback_token (n : nat) : string :=
  NilZero.string_of_uint (Nat.to_uint n).

(** Modelled from the spec: [io_ctrl.output_register_callback], which is
    not part of [output.py]; it records the handler with its [save] payload
    and mutual-exclusion flag in the callback registry and returns an
    opaque callback identifier. *)
Definition output_register_callback
    (onclick : handler) (save : pyval) (mutex_mode : bool) : M string := λ w,
  (Ok (callback_token (length (callbacks w))),
   add_callback
     {| reg_onclick := onclick; reg_save := save;
        reg_mutex_mode := mutex_mode |} w).

(** Reading, replacing and creating list objects. *)
Definition load (l : loc) : M (list row) := λ w,
  match lists w !! l with
  | Some rows => (Ok rows, w)
  | None => (Raise TypeError, w)
  end.

Definition store (l : loc) (rows : list row) : M () := λ w,
  (Ok (), set_list l rows w).

Definition alloc (rows : list row) : M loc := λ w,
  let l := fresh (dom (lists w)) in
  (Ok l, set_list l rows w).

(** ** Environment and page control *)

(** [set_title(title)] *)
Definition set_title (title : string) : M () :=
  send_msg "output_ctl" {[ "title" := VStr title ]}.

(** [set_output_fixed_height(enabled=True)]; [None] stands for an omitted
    argument. *)
Definition set_output_fixed_height (enabled : option bool) : M () :=
  let enabled := default true enabled in
  send_msg "output_ctl" {[ "output_fixed_height" := VBool enabled ]}.

(** [set_auto_scroll_bottom(enabled=True)] *)
Definition set_auto_scroll_bottom (enabled : option bool) : M () :=
  let enabled := default true enabled in
  send_msg "output_ctl" {[ "auto_scroll_bottom" := VBool enabled ]}.

(** ** Anchors *)

(** [_AnchorTPL % name] with [_AnchorTPL = 'pywebio-anchor-%s'] *)
Definition _AnchorTPL (name : string) : string := "pywebio-anchor-" +:+ name.

Definition set_anchor (name : string) : M () :=
  let inner_ancher_name := _AnchorTPL name in
  send_msg "output_ctl" {[ "set_anchor" := VStr inner_ancher_name ]}.

Definition clear_before (anchor : string) : M () :=
  let inner_ancher_name := _AnchorTPL anchor in
  send_msg "output_ctl" {[ "clear_before" := VStr inner_ancher_name ]}.

Definition clear_after (anchor : string) : M () :=
  let inner_ancher_name := _AnchorTPL anchor in
  send_msg "output_ctl" {[ "clear_after" := VStr inner_ancher_name ]}.

Definition clear_range (start_anchor end_anchor : string) : M () :=
  let inner_start_anchor_name := "pywebio-anchor-" +:+ start_anchor in
  let inner_end_ancher_name := "pywebio-anchor-" +:+ end_anchor in
  send_msg "output_ctl"
    {[ "clear_range" :=
         VList [VStr inner_start_anchor_name; VStr inner_end_ancher_name] ]}.

Definition scroll_to (anchor : string) : M () :=
  let inner_ancher_name := "pywebio-anchor-" +:+ anchor in
  send_msg "output_ctl" {[ "scroll_to" := VStr inner_ancher_name ]}.

(** ** Content output *)

Definition before_after_msg : string :=
  "Parameter 'before' and 'after' cannot be specified at the same time".

(** The instruction [_put_content] builds: [dict(type=type)], updated with
    the keyword arguments, then tagged with the positioning options that
    are truthy ([before] first, [after] only when [before] is not). *)
Definition build_spec (type : string) (anchor before after : option string)
    (other_spec : gmap string pyval) : gmap string pyval :=
  let spec := {[ "type" := VStr type ]} in
  let spec := other_spec ∪ spec in
  let spec :=
    Py.if_truthy anchor
      (λ anchor, <["anchor" := VStr (_AnchorTPL anchor)]> spec) spec in
  Py.if_truthy before
    (λ before, <["before" := VStr (_AnchorTPL before)]> spec)
    (Py.if_truthy after
       (λ after, <["after" := VStr (_AnchorTPL after)]> spec) spec).

(** [_put_content(type, ws=None, anchor=None, before=None, after=None,
    **other_spec)] *)
Definition _put_content (type : string) (ws : option session)
    (anchor before after : option string)
    (other_spec : gmap string pyval) : M () :=
  lift (assert_ (negb (Py.truthy before && Py.truthy after))
          before_after_msg);;
  let spec := build_spec type anchor before after other_spec in
  let msg := envelope "output" spec in
  target ← match ws with
           | Some s => mret s
           | None => get_active_ws
           end;
  add_server_msg target msg.

(** [put_text(text, inline=False, anchor=None, before=None, after=None)] *)
Definition put_text (text : string) (inline : option bool)
    (anchor before after : option string) : M () :=
  let inline := default false inline in
  _put_content "text" None anchor before after
    {[ "content" := VStr text; "inline" := VBool inline ]}.

(** [put_html(html, anchor=None, before=None, after=None)] *)
Definition put_html (html : string)
    (anchor before after : option string) : M () :=
  _put_content "html" None anchor before after {[ "content" := VStr html ]}.

(** One line of the [strip_indent] pass. *)
Definition strip_indent_line (strip_indent : Z) (i : string) : string :=
  if String.eqb (Py.slice_to strip_indent i) (Py.str_repeat " " strip_indent)
  then Py.slice_from strip_indent i
  else i.

(** The Markdown source [put_markdown] transmits. *)
Definition markdown_source (mdcontent : string) (strip_indent : Z)
    (lstrip : bool) : string :=
  let mdcontent :=
    if (strip_indent =? 0)%Z then mdcontent
    else
      let lines :=
        map (strip_indent_line strip_indent) (Py.splitlines mdcontent) in
      Py.join Py.nl lines in
  if lstrip then
    let lines := map Py.lstrip (Py.splitlines mdcontent) in
    Py.join Py.nl lines
  else mdcontent.

(** [put_markdown(mdcontent, strip_indent=0, lstrip=False, anchor=None,
    before=None, after=None)] *)
Definition put_markdown (mdcontent : string) (strip_indent : option Z)
    (lstrip : option bool) (anchor before after : option string) : M () :=
  let strip_indent := default 0%Z strip_indent in
  let lstrip := default false lstrip in
  let mdcontent := markdown_source mdcontent strip_indent lstrip in
  _put_content "markdown" None anchor before after
    {[ "content" := VStr mdcontent ]}.

(** The fenced block built by [put_code]:
    [```%s\n%s\n``` % (langage, content)]. *)
Definition code_fence (langage content : string) : string :=
  "```" +:+ langage +:+ Py.nl +:+ content +:+ Py.nl +:+ "```".

(** [put_code(content, langage='', anchor=None, before=None, after=None)] *)
Definition put_code (content : string) (langage : option string)
    (anchor before after : option string) : M () :=
  let langage := default EmptyString langage in
  let code := code_fence langage content in
  put_markdown code None None anchor before after.

(** *** Tables *)

(** [str(data)] on a scalar. *)
Definition str (data : cell) : string :=
  match data with
  | CNone => "None"
  | CBool true => "True"
  | CBool false => "False"
  | CInt z => NilZero.string_of_int (Z.to_int z)
  | CStr s => s
  end.

(** The local function [quote] of [put_table]. *)
Definition quote (data : cell) : string :=
  Py.replace_char "|" "\|" (str data).

(** The items met when iterating a row: the cells of a list, the keys of a
    [dict], the characters of a [str]. *)
Definition iter_row (r : row) : list cell :=
  match r with
  | RList cells => cells
  | RDict items => map (λ kv, CStr kv.1) items
  | RStr s => map CStr (Py.chars s)
  end.

(** [len(r)] *)
Definition len_row (r : row) : nat := length (iter_row r).

(** [d.get(k, '')] on the items of a [dict]. *)
Fixpoint dict_get (items : list (string * cell)) (k : string) : cell :=
  match items with
  | [] => CStr EmptyString
  | (k', v) :: rest => if String.eqb k' k then v else dict_get rest k
  end.

(** [[row.get(k, '') for k in header]]: only a [dict] has [get]. *)
Definition project_row (header : list string) (r : row) : result row :=
  match header, r with
  | [], _ => Ok (RList [])
  | _ :: _, RDict items => Ok (RList (map (dict_get items) header))
  | _ :: _, _ => Raise AttributeError
  end.

(** [[[row.get(k, '') for k in header] for row in tdata]] *)
Fixpoint project_rows (header : list string) (tdata : list row)
    : result (list row) :=
  match tdata with
  | [] => Ok []
  | r :: rest =>
      r' ← project_row header r;
      rest' ← project_rows header rest;
      Ok (r' :: rest')
  end.

(** [tdata[0]] *)
Definition first_row (rows : list row) : result row :=
  match rows with
  | [] => Raise IndexError
  | r :: _ => Ok r
  end.

(** ["|%s|" % "|".join(items)] *)
Definition table_line (items : list string) : string :=
  "|" +:+ Py.join "|" items +:+ "|".

(** The lines [put_table] collects in [res], joined by newlines: the header
    line from [first] (which is [tdata[0]]), the separator line, and one
    line for each row of [tdata[1:]]. *)
Definition table_markdown (first : row) (rows : list row) : string :=
  let header := table_line (map quote (iter_row first)) in
  let res := [header] in
  let res := res ++ [table_line (repeat "----" (len_row first))] in
  let res :=
    res ++ map (λ tr, table_line (map quote (iter_row tr))) (drop 1 rows) in
  Py.join Py.nl res.

(** The body of [put_table] up to the call of [put_markdown]: the Markdown
    source of the table.  [tdata] is the address of the caller's list
    object; with a truthy [header] the name is rebound to a new list. *)
Definition table_source (tdata : loc) (header : option (list string))
    : M string :=
  tdata ← (if Py.truthy_list header then
             rows ← load tdata;
             projected ← lift (project_rows (default [] header) rows);
             alloc projected
           else mret tdata);
  rows ← load tdata;
  (if (length rows =? 1)%nat then
     first ← lift (first_row rows);
     store tdata (repeat (RStr " ") (len_row first) ++ rows)
   else mret ());;
  rows ← load tdata;
  first ← lift (first_row rows);
  mret (table_markdown first rows).

(** [put_table(tdata, header=None, anchor=None, before=None, after=None)] *)
Definition put_table (tdata : loc) (header : option (list string))
    (anchor before after : option string) : M () :=
  source ← table_source tdata header;
  put_markdown source None None anchor before after.

(** *** Buttons *)

(** [dict(zip(keys, items))] *)
Definition dict_zip (keys : list string) (items : list pyval)
    : gmap string pyval :=
  list_to_map (zip keys items).

(** The body of the loop of [_format_button]; [btns] is the list built so
    far. *)
Fixpoint _format_button_loop (buttons btns : list pyval)
    : result (list pyval) :=
  match buttons with
  | [] => Ok btns
  | btn :: rest =>
      btn ← match btn with
            | VDict d =>
                assert_ (bool_decide (is_Some (d !! "value"))
                         && bool_decide (is_Some (d !! "label")))
                  "actions item must have value and label key";;
                Ok btn
            | VList items =>
                assert_ (length items =? 2)%nat "actions item format error";;
                Ok (VDict (dict_zip ["value"; "label"] items))
            | _ => Ok (VDict {[ "value" := btn; "label" := btn ]})
            end;
      _format_button_loop rest (btns ++ [btn])
  end.

(** [_format_button(buttons)] *)
Definition _format_button (buttons : list pyval) : result (list pyval) :=
  _format_button_loop buttons [].

(** [put_buttons(buttons, onclick, small=False, save=None, mutex_mode=False,
    anchor=None, before=None, after=None)] *)
Definition put_buttons (buttons : list pyval) (onclick : handler)
    (small : option bool) (save : option pyval) (mutex_mode : option bool)
    (anchor before after : option string) : M () :=
  let small := default false small in
  let save := default VNone save in
  let mutex_mode := default false mutex_mode in
  lift (assert_ (negb (Py.truthy before && Py.truthy after))
          before_after_msg);;
  btns ← lift (_format_button buttons);
  callback_id ← output_register_callback onclick save mutex_mode;
  _put_content "buttons" None anchor before after
    {[ "callback_id" := VStr callback_id; "buttons" := VList btns;
       "small" := VBool small ]}.

(** *** Files *)

(** [put_file(name, content, anchor=None, before=None, after=None)] *)
Definition put_file (name : string) (content : list Byte.byte)
    (anchor before after : option string) : M () :=
  lift (assert_ (negb (Py.truthy before && Py.truthy after))
          before_after_msg);;
  content ← match Base64.decode_ascii (Base64.b64encode content) with
            | Some s => mret s
            | None => raise UnicodeDecodeError
            end;
  _put_content "file" None anchor before after
    {[ "name" := VStr name; "content" := VStr content ]}.

(** ** Vocabulary of the statements *)

(** Both [before] and [after] are truthy. *)
Definition both_set (before after : option string) : bool :=
  Py.truthy before && Py.truthy after.


(** Keyword arguments never bind the names of the positioning parameters
    of [_put_content]. *)
Definition positional_free (other_spec : gmap string pyval) : Prop :=
  other_spec !! "anchor" = None
  ∧ other_spec !! "before" = None
  ∧ other_spec !! "after" = None.

(** The outcome of a content operation that builds [spec] without failing:
    the assertion error and an untouched world when [before] and [after]
    are both truthy, one envelope at [target] otherwise. *)
Definition content_outcome (target : session) (before after : option string)
    (spec : gmap string pyval) (w : world) : result () * world :=
  if both_set before after
  then (Raise (AssertionError before_after_msg), w)
  else (Ok (), enqueue target (envelope "output" spec) w).

(** The value a dispatched message holds under [key], when the message is
    a mapping. *)
Definition message_field (key : string) (msg : pyval) : option pyval :=
  match msg with
  | VDict d => d !! key
  | _ => None
  end.

(** The value the [spec] of a dispatched message holds under [key]. *)
Definition message_spec_field (key : string) (msg : pyval) : option pyval :=
  match message_field "spec" msg with
  | Some (VDict spec) => spec !! key
  | _ => None
  end.

(** Between [w] and [w'] exactly one message joined the queue of [target]
    and nothing else was dispatched; the message holds the given command
    under [command] and a mapping under [spec]. *)
Definition dispatched_one (command : string) (target : session)
    (w w' : world) : Prop :=
  ∃ msg spec,
    outbox w' = outbox w ++ [(target, msg)]
    ∧ message_field "command" msg = Some (VStr command)
    ∧ message_field "spec" msg = Some (VDict spec).

(** The call returned after it dispatched, to the active session, exactly
    one message whose command is [output_ctl] and whose [spec] is the
    mapping of the one control key [key] to [value]. *)
Definition sends_control (key : string) (value : pyval) (w : world)
    (out : result () * world) : Prop :=
  out.1 = Ok ()
  ∧ ∃ msg,
      outbox out.2 = outbox w ++ [(active_ws w, msg)]
      ∧ message_field "command" msg = Some (VStr "output_ctl")
      ∧ message_field "spec" msg = Some (VDict {[ key := value ]}).

(** The tag transmitted for a positioning argument: that of its name when
    the argument is a non-empty string, none otherwise. *)
Definition tagged (arg : option string) : option pyval :=
  Py.if_truthy arg (λ name, Some (VStr ("pywebio-anchor-" +:+ name))) None.

(** A call that returned has dispatched to [target] one message whose
    [spec] holds, under [anchor], [before] and [after], the tags of the
    arguments of these names ([after] only when [before] is not truthy). *)
Definition transmits_tags (target : session)
    (anchor before after : option string) (w : world)
    (out : result () * world) : Prop :=
  out.1 = Ok () →
  ∃ msg,
    outbox out.2 = outbox w ++ [(target, msg)]
    ∧ message_spec_field "anchor" msg = tagged anchor
    ∧ message_spec_field "before" msg = tagged before
    ∧ message_spec_field "after" msg
      = if Py.truthy before then None else tagged after.

(** The call dispatched exactly one envelope if it returned, and nothing if
    it raised. *)
Definition one_or_none (command : string) (target : session) (w : world)
    (out : result () * world) : Prop :=
  match out.1 with
  | Ok _ => dispatched_one command target w out.2
  | Raise _ => outbox out.2 = outbox w
  end.

(** A computation is quiet when it leaves the outbound queues, the active
    session and the callback registry as they were. *)
Definition quiet {A : Type} (m : M A) : Prop :=
  ∀ w, outbox (m w).2 = outbox w
       ∧ active_ws (m w).2 = active_ws w
       ∧ callbacks (m w).2 = callbacks w.

(** The text of the base64 encoding of [content]. *)
Definition b64_text (content : list Byte.byte) : string :=
  string_of_list_byte (Base64.b64encode content).

(** What the single-row branch of [put_table] makes of the list [[r]]. *)
Definition padded (r : row) : list row :=
  repeat (RStr " ") (len_row r) ++ [r].

(** The first element of [padded r]. *)
Definition padded_first (r : row) : row :=
  match len_row r with
  | O => r
  | S _ => RStr " "
  end.

(** The line begins with a whitespace character. *)
Definition starts_with_space (s : string) : bool :=
  match s with
  | EmptyString => false
  | String c _ => Py.is_space c
  end.

(** Every character of [s] is whitespace. *)
Fixpoint all_space (s : string) : bool :=
  match s with
  | EmptyString => true
  | String c rest => Py.is_space c && all_space rest
  end.

(** One of the first [n] characters of [line] is not a space. *)
Definition not_all_spaces (n : Z) (line : string) : Prop :=
  ∃ (i : nat) (c : ascii),
    (Z.of_nat i < n)%Z ∧ String.get i line = Some c ∧ c ≠ " "%char.

(** The [value] and [label] of a normalized button. *)
Definition button_fields (btn : pyval) : option pyval * option pyval :=
  match btn with
  | VDict d => (d !! "value", d !! "label")
  | _ => (None, None)
  end.

(** The fields of the buttons [_format_button] returned. *)
Definition normalized_fields (r : result (list pyval))
    : list (option pyval * option pyval) :=
  match r with
  | Ok btns => map button_fields btns
  | Raise _ => []
  end.

(** Sample inputs. *)

Definition ab_dict_rows : list row :=
  [RDict [("a", CInt 1); ("b", CInt 2)];
   RDict [("a", CInt 3); ("b", CInt 4)]].

Definition two_by_two : list row :=
  [RList [CStr "a"; CStr "b"]; RList [CInt 1; CInt 2]].

Definition h1_body : string :=
  "    # H1
    body
".

Definition xy_row : row := RList [CStr "x"; CStr "y"].

(** A world with session 1 active, nothing dispatched, no callback, and
    one list object, at address 0, holding [rows]. *)
Definition sample_world (rows : list row) : world :=
  {| active_ws := 1%nat;
     outbox := [];
     callbacks := [];
     lists := {[ 0%nat := rows ]} |}.

Definition abc_buttons : list pyval :=
  [VStr "a";
   VTuple [VStr "b"; VStr "Bee"];
   VDict {[ "value" := VStr "c"; "label" := VStr "Cee" ]}].

Definition abc_buttons_list_pair : list pyval :=
  [VStr "a";
   VList [VStr "b"; VStr "Bee"];
   VDict {[ "value" := VStr "c"; "label" := VStr "Cee" ]}].

(** The normal form the documentation promises for [abc_buttons]. *)
Definition abc_normalized : list pyval :=
  [VDict {[ "value" := VStr "a"; "label" := VStr "a" ]};
   VDict {[ "value" := VStr "b"; "label" := VStr "Bee" ]};
   VDict {[ "value" := VStr "c"; "label" := VStr "Cee" ]}].

(** ** Vocabulary of the further properties *)

(** The normal form [_format_button] gives a well-formed item. *)
Definition normalize_button (btn : pyval) : pyval :=
  match btn with
  | VDict _ => btn
  | VList items => VDict (dict_zip ["value"; "label"] items)
  | _ => VDict {[ "value" := btn; "label" := btn ]}
  end.

(** The shape [_format_button] asserts of an item. *)
Definition well_formed_button (btn : pyval) : bool :=
  match btn with
  | VDict d =>
      bool_decide (is_Some (d !! "value"))
      && bool_decide (is_Some (d !! "label"))
  | VList items => (length items =? 2)%nat
  | _ => true
  end.

(** The error [_format_button] raises on an ill-formed item. *)
Definition button_error (btn : pyval) : exn :=
  match btn with
  | VDict _ => AssertionError "actions item must have value and label key"
  | _ => AssertionError "actions item format error"
  end.

(** A mapping that has both a [value] and a [label]. *)
Definition is_normalized (btn : pyval) : bool :=
  match btn with
  | VDict d =>
      bool_decide (is_Some (d !! "value"))
      && bool_decide (is_Some (d !! "label"))
  | _ => false
  end.


(** The row is a [dict]. *)
Definition is_dict_row (r : row) : bool :=
  match r with
  | RDict _ => true
  | _ => false
  end.

(** The cells a [dict] row has under [header]; no cell for another row. *)
Definition projected_cells (header : list string) (r : row) : list cell :=
  match r with
  | RDict items => map (dict_get items) header
  | _ => []
  end.

(** No character of [s] is a line boundary. *)
Fixpoint no_break (s : string) : bool :=
  match s with
  | EmptyString => true
  | String c rest => negb (Py.is_linebreak c) && no_break rest
  end.

(** Every line boundary in [s] is a line feed. *)
Fixpoint only_lf_breaks (s : string) : bool :=
  match s with
  | EmptyString => true
  | String c rest =>
      (negb (Py.is_linebreak c) || Py.is_lf c) && only_lf_breaks rest
  end.

(** The character is CR, VT, FF, FS, GS, RS or NEL: a line boundary of
    [str.splitlines] other than the line feed. *)
Definition foreign_break (c : ascii) : bool :=
  existsb (N.eqb (N_of_ascii c)) [11; 12; 13; 28; 29; 30; 133]%N.

(** No character of [s] is a line boundary other than the line feed. *)
Fixpoint no_foreign_breaks (s : string) : bool :=
  match s with
  | EmptyString => true
  | String c rest => negb (foreign_break c) && no_foreign_breaks rest
  end.

(** A content of three lines ended by CR LF, CR and LF. *)
Definition mixed_breaks : string :=
  "a" +:+ String "013" (String "010" "b")
      +:+ String "013" "c" +:+ String "010" EmptyString.

(** The byte is a character of the base64 alphabet or the padding. *)
Definition is_b64_char (b : Byte.byte) : bool :=
  bool_decide (is_Some (Base64.dec_sextet b)) || Base64.is_pad b.

(** The text with the backslash before every [|] removed. *)
Fixpoint unescape_pipe (s : string) : string :=
  match s with
  | EmptyString => EmptyString
  | String c rest =>
      match rest with
      | String c' rest' =>
          if Ascii.eqb c "\" && Ascii.eqb c' "|"
          then String "|" (unescape_pipe rest')
          else String c (unescape_pipe rest)
      | EmptyString => String c EmptyString
      end
  end.

(** Every [|] of [s] comes right after a backslash; [escaped] tells whether
    the character before [s] is one. *)
Fixpoint pipes_escaped (escaped : bool) (s : string) : bool :=
  match s with
  | EmptyString => true
  | String c rest =>
      (negb (Ascii.eqb c "|") || escaped)
      && pipes_escaped (Ascii.eqb c "\") rest
  end.

(** * Properties *)

(** ** Base64 *)
Module Base64Facts.
Import Base64.

Lemma list_ind3 {A : Type} (P : list A → Prop) :
  P [] →
  (∀ a, P [a]) →
  (∀ a b, P [a; b]) →
  (∀ a b c rest, P rest → P (a :: b :: c :: rest)) →
  ∀ l, P l.
Proof.
  intros H0 H1 H2 H3. fix IH 1.
  intros [|a [|b [|c rest]]];
    [apply H0 | apply H1 | apply H2 | apply H3, IH].
Qed.

Lemma byte_val_range (b : Byte.byte) : (0 ≤ byte_val b < 256)%Z.
Proof.
  unfold byte_val. pose proof (Byte.to_N_bounded b). lia.
Qed.

Lemma byte_of_val_byte_val (b : Byte.byte) : byte_of_val (byte_val b) = b.
Proof.
  unfold byte_of_val, byte_val. rewrite N2Z.id, Byte.of_to_N. reflexivity.
Qed.

(** Every digit below 64 is written as an alphabet character, which is not
    the padding character and reads back as the same digit. *)
Lemma sextet_roundtrip_nat (n : nat) :
  (n < 64)%nat →
  dec_sextet (enc_sextet (Z.of_nat n)) = Some (Z.of_nat n)
  ∧ is_pad (enc_sextet (Z.of_nat n)) = false.
Proof.
  intros Hn.
  do 64 (destruct n as [|n]; [split; vm_compute; reflexivity|]).
  lia.
Qed.

Lemma sextet_roundtrip (i : Z) :
  (0 ≤ i < 64)%Z →
  dec_sextet (enc_sextet i) = Some i ∧ is_pad (enc_sextet i) = false.
Proof.
  intros Hi. rewrite <- (Z2Nat.id i) by lia.
  apply sextet_roundtrip_nat. lia.
Qed.

Lemma dec_enc (i : Z) : (0 ≤ i < 64)%Z → dec_sextet (enc_sextet i) = Some i.
Proof. intros Hi. apply sextet_roundtrip, Hi. Qed.

Lemma enc_not_pad (i : Z) : (0 ≤ i < 64)%Z → is_pad (enc_sextet i) = false.
Proof. intros Hi. apply sextet_roundtrip, Hi. Qed.

Lemma is_pad_pad : is_pad pad = true.
Proof. reflexivity. Qed.

Lemma b64decode_b64encode (bs : list Byte.byte) :
  b64decode (b64encode bs) = Some bs.
Proof.
  induction bs as [|a|a b|a b c rest IH] using list_ind3.
  - reflexivity.
  - pose proof (byte_val_range a) as Ha.
    cbn [b64encode b64decode].
    rewrite !dec_enc by (Z.div_mod_to_equations; lia).
    cbn [mbind option_bind]. rewrite is_pad_pad.
    replace ((byte_val a * 16 / 64 * 64 + byte_val a * 16 mod 64) / 16)%Z
      with (byte_val a) by (Z.div_mod_to_equations; lia).
    rewrite byte_of_val_byte_val. reflexivity.
  - pose proof (byte_val_range a) as Ha. pose proof (byte_val_range b) as Hb.
    cbn [b64encode b64decode].
    set (n := ((byte_val a * 256 + byte_val b) * 4)%Z).
    assert (0 ≤ n < 262144)%Z as Hn by (subst n; lia).
    rewrite !dec_enc by (Z.div_mod_to_equations; lia).
    cbn [mbind option_bind]. rewrite is_pad_pad.
    rewrite enc_not_pad by (Z.div_mod_to_equations; lia).
    rewrite ?dec_enc by (Z.div_mod_to_equations; lia).
    cbn [mbind option_bind].
    replace ((n / 4096 * 4096 + n / 64 mod 64 * 64 + n mod 64) / 4)%Z
      with (byte_val a * 256 + byte_val b)%Z
      by (subst n; Z.div_mod_to_equations; lia).
    replace ((byte_val a * 256 + byte_val b) / 256)%Z with (byte_val a)
      by (Z.div_mod_to_equations; lia).
    replace ((byte_val a * 256 + byte_val b) mod 256)%Z with (byte_val b)
      by (Z.div_mod_to_equations; lia).
    rewrite !byte_of_val_byte_val. reflexivity.
  - pose proof (byte_val_range a) as Ha. pose proof (byte_val_range b) as Hb.
    pose proof (byte_val_range c) as Hc.
    cbn [b64encode b64decode].
    set (n := (byte_val a * 65536 + byte_val b * 256 + byte_val c)%Z).
    assert (0 ≤ n < 16777216)%Z as Hn by (subst n; lia).
    rewrite !dec_enc by (Z.div_mod_to_equations; lia).
    cbn [mbind option_bind].
    rewrite enc_not_pad by (Z.div_mod_to_equations; lia).
    rewrite ?dec_enc by (Z.div_mod_to_equations; lia).
    cbn [mbind option_bind]. rewrite IH. cbn [mbind option_bind].
    replace (n / 262144 * 262144 + n / 4096 mod 64 * 4096
             + n / 64 mod 64 * 64 + n mod 64)%Z
      with n by (Z.div_mod_to_equations; lia).
    replace (n / 65536)%Z with (byte_val a)
      by (subst n; Z.div_mod_to_equations; lia).
    replace (n / 256 mod 256)%Z with (byte_val b)
      by (subst n; Z.div_mod_to_equations; lia).
    replace (n mod 256)%Z with (byte_val c)
      by (subst n; Z.div_mod_to_equations; lia).
    rewrite !byte_of_val_byte_val. reflexivity.
Qed.

(** The encoder only writes ASCII characters. *)
Lemma enc_sextet_ascii (i : Z) : (byte_val (enc_sextet i) <? 128)%Z = true.
Proof.
  unfold enc_sextet. generalize (Z.to_nat i) as n. intros n.
  do 64 (destruct n as [|n]; [vm_compute; reflexivity|]).
  vm_compute. reflexivity.
Qed.

Lemma pad_ascii : (byte_val pad <? 128)%Z = true.
Proof. reflexivity. Qed.

Lemma b64encode_ascii (bs : list Byte.byte) :
  Forall (λ b, (byte_val b <? 128)%Z = true) (b64encode bs).
Proof.
  induction bs as [|a|a b|a b c rest IH] using list_ind3;
    cbn [b64encode];
    repeat first [apply Forall_nil_2 | apply Forall_cons_2];
    auto using enc_sextet_ascii, pad_ascii.
Qed.

Lemma decode_ascii_ok (bs : list Byte.byte) :
  Forall (λ b, (byte_val b <? 128)%Z = true) bs →
  decode_ascii bs = Some (string_of_list_byte bs).
Proof.
  induction 1 as [|b bs Hb _ IH]; [reflexivity|].
  cbn [decode_ascii]. rewrite Hb, IH. reflexivity.
Qed.

Lemma N_of_ascii_of_byte (b : Byte.byte) :
  N_of_ascii (ascii_of_byte b) = Byte.to_N b.
Proof.
  rewrite ascii_of_byte_via_N. apply N_ascii_embedding.
  pose proof (Byte.to_N_bounded b). lia.
Qed.

Lemma encode_ascii_ok (bs : list Byte.byte) :
  Forall (λ b, (byte_val b <? 128)%Z = true) bs →
  encode_ascii (string_of_list_byte bs) = Some bs.
Proof.
  induction 1 as [|b bs Hb _ IH]; [reflexivity|].
  unfold string_of_list_byte in *. cbn [map string_of_list_ascii encode_ascii].
  rewrite N_of_ascii_of_byte.
  replace (Byte.to_N b <? 128)%N with true
    by (unfold byte_val in Hb; symmetry; apply N.ltb_lt; lia).
  rewrite IH, byte_of_ascii_of_byte. reflexivity.
Qed.

(** The text [put_file] transmits decodes back to the content. *)
Lemma b64_text_roundtrip (content : list Byte.byte) :
  decode_ascii (b64encode content) = Some (b64_text content)
  ∧ b64decode_str (b64_text content) = Some content.
Proof.
  unfold b64_text, b64decode_str. split.
  - apply decode_ascii_ok, b64encode_ascii.
  - rewrite encode_ascii_ok by apply b64encode_ascii.
    apply b64decode_b64encode.
Qed.

End Base64Facts.

(** ** The shared primitive [_put_content] *)

Lemma _put_content_run type ws anchor before after other w :
  _put_content type ws anchor before after other w =
  content_outcome (default (active_ws w) ws) before after
    (build_spec type anchor before after other) w.
Proof.
  unfold _put_content, content_outcome, both_set.
  unfold mbind, M_bind, lift, assert_.
  destruct (Py.truthy before && Py.truthy after), ws; reflexivity.
Qed.

(** The public content operations in terms of the primitive. *)

Lemma put_text_run text inline anchor before after w :
  put_text text inline anchor before after w =
  content_outcome (active_ws w) before after
    (build_spec "text" anchor before after
       {[ "content" := VStr text; "inline" := VBool (default false inline) ]})
    w.
Proof. unfold put_text. apply _put_content_run. Qed.

Lemma put_html_run html anchor before after w :
  put_html html anchor before after w =
  content_outcome (active_ws w) before after
    (build_spec "html" anchor before after {[ "content" := VStr html ]}) w.
Proof. unfold put_html. apply _put_content_run. Qed.

Lemma put_markdown_run mdcontent strip_indent lstrip anchor before after w :
  put_markdown mdcontent strip_indent lstrip anchor before after w =
  content_outcome (active_ws w) before after
    (build_spec "markdown" anchor before after
       {[ "content" :=
            VStr (markdown_source mdcontent (default 0%Z strip_indent)
                    (default false lstrip)) ]}) w.
Proof. unfold put_markdown. apply _put_content_run. Qed.

Lemma put_code_run content langage anchor before after w :
  put_code content langage anchor before after w =
  content_outcome (active_ws w) before after
    (build_spec "markdown" anchor before after
       {[ "content" :=
            VStr (code_fence (default EmptyString langage) content) ]}) w.
Proof. unfold put_code. apply put_markdown_run. Qed.

Lemma put_buttons_run buttons onclick small save mutex_mode
    anchor before after w :
  put_buttons buttons onclick small save mutex_mode anchor before after w =
  if both_set before after
  then (Raise (AssertionError before_after_msg), w)
  else
    match _format_button buttons with
    | Raise e => (Raise e, w)
    | Ok btns =>
        let reg := {| reg_onclick := onclick;
                      reg_save := default VNone save;
                      reg_mutex_mode := default false mutex_mode |} in
        (Ok (),
         enqueue (active_ws w)
           (envelope "output"
              (build_spec "buttons" anchor before after
                 {[ "callback_id" :=
                      VStr (callback_token (length (callbacks w)));
                    "buttons" := VList btns;
                    "small" := VBool (default false small) ]}))
           (add_callback reg w))
    end.
Proof.
  unfold put_buttons, both_set.
  unfold mbind at 1 2 3, M_bind, lift, assert_.
  destruct (Py.truthy before && Py.truthy after) eqn:Hboth; [reflexivity|].
  cbn [negb]. destruct (_format_button buttons) as [btns|e]; [|reflexivity].
  unfold output_register_callback. rewrite _put_content_run.
  unfold content_outcome, both_set. rewrite Hboth. reflexivity.
Qed.

(** ** Steps that dispatch nothing *)

Lemma quiet_ret {A : Type} (a : A) : quiet (mret a).
Proof. intros w. auto. Qed.

Lemma quiet_lift {A : Type} (r : result A) : quiet (lift r).
Proof. intros w. auto. Qed.

Lemma quiet_load l : quiet (load l).
Proof. intros w. unfold load. destruct (lists w !! l); auto. Qed.

Lemma quiet_store l rows : quiet (store l rows).
Proof. intros w. auto. Qed.

Lemma quiet_alloc rows : quiet (alloc rows).
Proof. intros w. auto. Qed.

Lemma quiet_bind {A B : Type} (m : M A) (f : A → M B) :
  quiet m → (∀ a, quiet (f a)) → quiet (m ≫= f).
Proof.
  intros Hm Hf w. unfold mbind, M_bind.
  destruct (Hm w) as (Ho & Ha & Hc).
  destruct (m w) as [[a|e] w1]; cbn [fst snd] in *.
  - destruct (Hf a w1) as (Ho' & Ha' & Hc'). repeat split; congruence.
  - auto.
Qed.

Lemma quiet_if {A : Type} (b : bool) (m1 m2 : M A) :
  quiet m1 → quiet m2 → quiet (if b then m1 else m2).
Proof. destruct b; auto. Qed.

Create HintDb quiet.
#[local] Hint Resolve quiet_ret quiet_lift quiet_load quiet_store quiet_alloc
  quiet_bind quiet_if : quiet.

Lemma table_source_quiet tdata header : quiet (table_source tdata header).
Proof. unfold table_source. auto 20 with quiet. Qed.

(** ** The table source and the caller's list *)

Lemma first_row_padded r : first_row (padded r) = Ok (padded_first r).
Proof.
  unfold padded, padded_first. destruct (len_row r); reflexivity.
Qed.

Lemma load_set_list l rows w : load l (set_list l rows w) = (Ok rows, set_list l rows w).
Proof.
  unfold load, set_list. cbn [lists]. rewrite lookup_insert_eq. reflexivity.
Qed.

Lemma table_source_no_header l header rows w :
  Py.truthy_list header = false →
  lists w !! l = Some rows →
  table_source l header w =
  match rows with
  | [] => (Raise IndexError, w)
  | [r] =>
      (Ok (table_markdown (padded_first r) (padded r)),
       set_list l (padded r) w)
  | r :: _ :: _ => (Ok (table_markdown r rows), w)
  end.
Proof.
  intros Hh Hl. unfold table_source. rewrite Hh.
  unfold mbind at 1, M_bind at 1, mret at 1, M_ret at 1.
  unfold mbind at 1, M_bind at 1. unfold load at 1. rewrite Hl.
  destruct rows as [|r [|r' rest]].
  - cbn [length Nat.eqb]. unfold mbind, M_bind, mret, M_ret, load, lift.
    rewrite Hl. reflexivity.
  - cbn [length Nat.eqb first_row].
    unfold mbind at 1, M_bind at 1. unfold mbind at 1, M_bind at 1.
    unfold lift at 1, store. fold (padded r).
    unfold mbind at 1, M_bind at 1. rewrite load_set_list.
    unfold mbind, M_bind, lift. rewrite first_row_padded. reflexivity.
  - cbn [length Nat.eqb]. unfold mbind, M_bind, mret, M_ret, load, lift.
    rewrite Hl. reflexivity.
Qed.

Lemma fresh_loc_ne l rows w :
  lists w !! l = Some rows → fresh (dom (lists w)) ≠ l.
Proof.
  intros Hl Heq. apply (is_fresh (dom (lists w))).
  rewrite Heq. apply elem_of_dom. eauto.
Qed.

Lemma table_source_header l h rows w :
  Py.truthy_list (Some h) = true →
  lists w !! l = Some rows →
  table_source l (Some h) w =
  match project_rows h rows with
  | Raise e => (Raise e, w)
  | Ok projected =>
      let l' := fresh (dom (lists w)) in
      table_source l' None (set_list l' projected w)
  end.
Proof.
  intros Hh Hl. unfold table_source at 1. rewrite Hh.
  unfold mbind at 1, M_bind at 1. unfold mbind at 1, M_bind at 1.
  unfold load at 1. rewrite Hl.
  unfold mbind at 1, M_bind at 1, lift at 1.
  change (default [] (Some h)) with h.
  destruct (project_rows h rows) as [projected|e]; reflexivity.
Qed.


Lemma put_table_run tdata header anchor before after w :
  put_table tdata header anchor before after w =
  match table_source tdata header w with
  | (Ok source, w') =>
      content_outcome (active_ws w') before after
        (build_spec "markdown" anchor before after
           {[ "content" := VStr source ]}) w'
  | (Raise e, w') => (Raise e, w')
  end.
Proof.
  unfold put_table, mbind, M_bind.
  destruct (table_source tdata header w) as [[source|e] w']; [|reflexivity].
  rewrite put_markdown_run. reflexivity.
Qed.

(** ** Markdown stripping *)

Lemma concat_repeat_space_S (k : nat) :
  String.concat EmptyString (repeat " " (S k)) =
  String " " (String.concat EmptyString (repeat " " k)).
Proof. destruct k; reflexivity. Qed.

Lemma take_spaces_get (k : nat) (s : string) :
  Py.str_take k s = String.concat EmptyString (repeat " " k) →
  ∀ i c, (i < k)%nat → String.get i s = Some c → c = " "%char.
Proof.
  revert s. induction k as [|k IH]; intros s Heq i c Hi Hget; [lia|].
  rewrite concat_repeat_space_S in Heq.
  destruct s as [|c0 s]; [discriminate|].
  cbn [Py.str_take] in Heq. injection Heq as Hc Hrest.
  destruct i as [|i]; cbn [String.get] in Hget.
  - congruence.
  - apply (IH s Hrest i c); [lia | exact Hget].
Qed.

(** A non-space among the first [n] characters makes the guard of the
    [strip_indent] pass fail. *)
Lemma not_all_spaces_guard (n : Z) (line : string) :
  not_all_spaces n line → Py.slice_to n line ≠ Py.str_repeat " " n.
Proof.
  intros (i & c & Hi & Hget & Hc) Heq. apply Hc.
  unfold Py.slice_to, Py.str_repeat, Py.slice_index in Heq.
  destruct (n <? 0)%Z eqn:Hn; [lia|].
  apply (take_spaces_get (Z.to_nat n) line Heq i c); [lia | exact Hget].
Qed.

Lemma strip_indent_line_unchanged (n : Z) (line : string) :
  Py.slice_to n line ≠ Py.str_repeat " " n → strip_indent_line n line = line.
Proof.
  intros Hne. unfold strip_indent_line.
  destruct (String.eqb_spec (Py.slice_to n line) (Py.str_repeat " " n));
    [contradiction | reflexivity].
Qed.

Lemma lstrip_length (s : string) :
  (String.length (Py.lstrip s) ≤ String.length s)%nat.
Proof.
  induction s as [|c s IH]; cbn [Py.lstrip String.length]; [lia|].
  destruct (Py.is_space c); cbn [String.length]; lia.
Qed.

Lemma lstrip_fixed (s : string) :
  Py.lstrip s = s ↔ starts_with_space s = false.
Proof.
  destruct s as [|c s]; cbn [Py.lstrip starts_with_space]; [tauto|].
  destruct (Py.is_space c) eqn:Hc; [|tauto].
  split; [|discriminate]. intros Heq.
  pose proof (lstrip_length s) as Hlen. rewrite Heq in Hlen.
  cbn [String.length] in Hlen. lia.
Qed.

Lemma lstrip_no_leading_space (s : string) :
  starts_with_space (Py.lstrip s) = false.
Proof.
  induction s as [|c s IH]; cbn [Py.lstrip]; [reflexivity|].
  destruct (Py.is_space c) eqn:Hc; [exact IH|].
  cbn [starts_with_space]. exact Hc.
Qed.

Lemma lstrip_removes_prefix (s : string) :
  ∃ ws, s = ws +:+ Py.lstrip s ∧ all_space ws = true.
Proof.
  induction s as [|c s (ws & Hs & Hws)]; cbn [Py.lstrip].
  - exists EmptyString. split; reflexivity.
  - destruct (Py.is_space c) eqn:Hc.
    + exists (String c ws).
      change (String c ws +:+ Py.lstrip s)
        with (String c (ws +:+ Py.lstrip s)).
      cbn [all_space]. rewrite Hc, Hws, <- Hs. split; reflexivity.
    + exists EmptyString. split; reflexivity.
Qed.

Lemma put_file_run name content anchor before after w :
  put_file name content anchor before after w =
  content_outcome (active_ws w) before after
    (build_spec "file" anchor before after
       {[ "name" := VStr name; "content" := VStr (b64_text content) ]}) w.
Proof.
  unfold put_file. unfold mbind at 1 2, M_bind, lift, assert_.
  destruct (Base64Facts.b64_text_roundtrip content) as [-> _].
  unfold content_outcome, both_set.
  destruct (Py.truthy before && Py.truthy after) eqn:Hboth; [reflexivity|].
  cbn [negb mret M_ret]. rewrite _put_content_run.
  unfold content_outcome, both_set. rewrite Hboth. reflexivity.
Qed.

Lemma send_msg_sends_control key value w :
  sends_control key value w (send_msg "output_ctl" {[ key := value ]} w).
Proof. split; [reflexivity|]. eexists. repeat split; reflexivity. Qed.

(** ** The instruction built by [build_spec] *)

Lemma build_spec_anchor type anchor before after other :
  positional_free other →
  build_spec type anchor before after other !! "anchor" =
  Py.if_truthy anchor (λ a, Some (VStr (_AnchorTPL a))) None.
Proof.
  intros (Ha & Hb & Hf). unfold build_spec.
  destruct anchor as [[|c1 s1]|], before as [[|c2 s2]|],
    after as [[|c3 s3]|]; cbn [Py.if_truthy Py.truthy_str];
    rewrite ?lookup_insert_eq, ?lookup_insert_ne by done;
    rewrite ?lookup_insert_eq, ?lookup_union, ?Ha, ?lookup_singleton_ne by done;
    reflexivity.
Qed.

Lemma build_spec_before type anchor before after other :
  positional_free other →
  build_spec type anchor before after other !! "before" =
  Py.if_truthy before (λ b, Some (VStr (_AnchorTPL b))) None.
Proof.
  intros (Ha & Hb & Hf). unfold build_spec.
  destruct anchor as [[|c1 s1]|], before as [[|c2 s2]|],
    after as [[|c3 s3]|]; cbn [Py.if_truthy Py.truthy_str];
    rewrite ?lookup_insert_eq, ?lookup_insert_ne by done;
    rewrite ?lookup_insert_eq, ?lookup_union, ?Hb, ?lookup_singleton_ne by done;
    reflexivity.
Qed.

Lemma build_spec_after type anchor before after other :
  positional_free other →
  build_spec type anchor before after other !! "after" =
  if Py.truthy before then None
  else Py.if_truthy after (λ a, Some (VStr (_AnchorTPL a))) None.
Proof.
  intros (Ha & Hb & Hf). unfold build_spec.
  destruct anchor as [[|c1 s1]|], before as [[|c2 s2]|],
    after as [[|c3 s3]|];
    cbn [Py.if_truthy Py.truthy_str Py.truthy];
    rewrite ?lookup_insert_eq, ?lookup_insert_ne by done;
    rewrite ?lookup_insert_eq, ?lookup_union, ?Hf, ?lookup_singleton_ne by done;
    reflexivity.
Qed.

(** The positioning options touch no other field. *)
Lemma build_spec_field type anchor before after other key :
  key ≠ "anchor" → key ≠ "before" → key ≠ "after" →
  build_spec type anchor before after other !! key =
  (other ∪ {[ "type" := VStr type ]}) !! key.
Proof.
  intros Ha Hb Hf. unfold build_spec.
  destruct anchor as [[|c1 s1]|], before as [[|c2 s2]|],
    after as [[|c3 s3]|]; cbn [Py.if_truthy Py.truthy_str];
    rewrite ?lookup_insert_ne by done; reflexivity.
Qed.




Lemma content_outcome_one_or_none target before after spec w :
  one_or_none "output" target w (content_outcome target before after spec w).
Proof.
  unfold content_outcome, one_or_none.
  destruct (both_set before after); cbn [fst snd]; [reflexivity|].
  eexists _, spec. repeat split; reflexivity.
Qed.

Lemma content_outcome_ok target before after spec w :
  (content_outcome target before after spec w).1 = Ok ()
  ↔ both_set before after = false.
Proof.
  unfold content_outcome. destruct (both_set before after); cbn [fst].
  - split; discriminate.
  - split; reflexivity.
Qed.

Lemma message_spec_field_envelope key cmd spec :
  message_spec_field key (envelope cmd spec) = spec !! key.
Proof. reflexivity. Qed.

Lemma content_outcome_transmits_tags target type anchor before after
    other w :
  positional_free other →
  transmits_tags target anchor before after w
    (content_outcome target before after
       (build_spec type anchor before after other) w).
Proof.
  intros Hfree. unfold transmits_tags, content_outcome.
  destruct (both_set before after); cbn [fst snd]; [discriminate|].
  intros _. eexists. split; [reflexivity|].
  rewrite !message_spec_field_envelope.
  rewrite build_spec_anchor, build_spec_before, build_spec_after
    by assumption.
  repeat split; reflexivity.
Qed.

Lemma put_buttons_ok buttons onclick small save mutex_mode
    anchor before after w :
  (put_buttons buttons onclick small save mutex_mode anchor before after w).1
  = Ok ()
  ↔ both_set before after = false
    ∧ ∃ btns, _format_button buttons = Ok btns.
Proof.
  rewrite put_buttons_run.
  destruct (both_set before after); cbn [fst].
  - split; [discriminate | intros [? _]; discriminate].
  - destruct (_format_button buttons) as [btns|e]; cbn [fst].
    + split; eauto.
    + split; [discriminate | intros [_ [? ?]]; discriminate].
Qed.

Lemma put_table_ok tdata header anchor before after w :
  (put_table tdata header anchor before after w).1 = Ok ()
  ↔ both_set before after = false
    ∧ ∃ source, (table_source tdata header w).1 = Ok source.
Proof.
  rewrite put_table_run.
  destruct (table_source tdata header w) as [[source|e] w']; cbn [fst].
  - rewrite content_outcome_ok. split; [eauto | tauto].
  - split; [discriminate | intros [_ [? ?]]; discriminate].
Qed.

(** * The claims *)

(** ** C1: [before] together with [after] *)

(** C1, as stated, fails: on an empty table, [put_table] called with both
    [before] and [after] set raises [IndexError] at [tdata[0]], not the
    assertion error, which it would only reach in [_put_content]. *)
Lemma put_table_empty_raises_index_error :
  put_table 0%nat None None (Some "a") (Some "b") (sample_world [])
  = (Raise IndexError, sample_world [])
  ∧ ∀ msg,
      (put_table 0%nat None None (Some "a") (Some "b") (sample_world [])).1
      ≠ Raise (AssertionError msg).
Proof.
  assert (put_table 0%nat None None (Some "a") (Some "b") (sample_world [])
          = (Raise IndexError, sample_world [])) as Heq.
  { rewrite put_table_run.
    rewrite (table_source_no_header 0%nat None [] (sample_world []));
      reflexivity. }
  split; [exact Heq|]. intros msg. rewrite Heq. discriminate.
Qed.

(** C1 (amended): when [before] and [after] are both non-empty, every
    content operation raises and dispatches nothing.  [_put_content],
    [put_text], [put_html], [put_markdown], [put_code], [put_buttons] and
    [put_file] raise the assertion error and leave the world as it was (no
    callback is registered either); [put_table] raises the assertion error
    once the table source is built, and the error of the construction
    itself when the table cannot be built.  The control operations take no
    [before] or [after]. *)
Theorem before_and_after_rejected (before after : option string) (w : world) :
  both_set before after = true →
  let rejected := (Raise (AssertionError before_after_msg), w) in
  (∀ type ws anchor other,
     _put_content type ws anchor before after other w = rejected)
  ∧ (∀ text inline anchor,
       put_text text inline anchor before after w = rejected)
  ∧ (∀ html anchor, put_html html anchor before after w = rejected)
  ∧ (∀ mdcontent strip_indent lstrip anchor,
       put_markdown mdcontent strip_indent lstrip anchor before after w
       = rejected)
  ∧ (∀ content langage anchor,
       put_code content langage anchor before after w = rejected)
  ∧ (∀ buttons onclick small save mutex_mode anchor,
       put_buttons buttons onclick small save mutex_mode anchor before after w
       = rejected)
  ∧ (∀ name content anchor,
       put_file name content anchor before after w = rejected)
  ∧ (∀ tdata header anchor,
       put_table tdata header anchor before after w
       = match table_source tdata header w with
         | (Ok _, w') => (Raise (AssertionError before_after_msg), w')
         | (Raise e, w') => (Raise e, w')
         end
       ∧ outbox (put_table tdata header anchor before after w).2 = outbox w).
Proof.
  intros Hboth rejected. subst rejected.
  repeat apply conj; intros.
  - rewrite _put_content_run. unfold content_outcome. now rewrite Hboth.
  - rewrite put_text_run. unfold content_outcome. now rewrite Hboth.
  - rewrite put_html_run. unfold content_outcome. now rewrite Hboth.
  - rewrite put_markdown_run. unfold content_outcome. now rewrite Hboth.
  - rewrite put_code_run. unfold content_outcome. now rewrite Hboth.
  - rewrite put_buttons_run. now rewrite Hboth.
  - rewrite put_file_run. unfold content_outcome. now rewrite Hboth.
  - rewrite put_table_run.
    destruct (table_source_quiet tdata header w) as (Hout & _ & _).
    destruct (table_source tdata header w) as [[source|e] w'];
      cbn [snd] in *; [|split; [reflexivity | exact Hout]].
    unfold content_outcome. rewrite Hboth.
    split; [reflexivity | exact Hout].
Qed.

Lemma before_and_after_rejected_witness :
  put_text "hello" None None (Some "top") (Some "bottom") (sample_world [])
  = (Raise (AssertionError before_after_msg), sample_world []).
Proof.
  pose proof (before_and_after_rejected (Some "top") (Some "bottom")
                (sample_world []) eq_refl) as H.
  cbv zeta in H. destruct H as (_ & Htext & _).
  exact (Htext "hello" None None).
Defined.

(** ** C9: an empty string counts as an absent argument *)


(** ** C5: the anchor tag *)

(** C5: an anchor name [n] is transmitted as [pywebio-anchor-n], the name
    appended verbatim, by every operation that takes an anchor: as the
    value of the control key in [set_anchor], [clear_before],
    [clear_after], [scroll_to] and (for both names) [clear_range], and as
    the [anchor], [before] or [after] field of the instruction a content
    operation builds, whenever that field is present (it is present when
    the name is non-empty, for [after] when moreover [before] is not).
    Every content operation that returns has dispatched one message whose
    [spec] holds exactly these tags for its three positioning arguments. *)
Theorem anchor_tag_format (n : string) :
  let tag := "pywebio-anchor-" +:+ n in
  _AnchorTPL n = tag
  ∧ (∀ w, set_anchor n w
          = (Ok (),
             enqueue (active_ws w)
               (envelope "output_ctl" {[ "set_anchor" := VStr tag ]}) w))
  ∧ (∀ w, clear_before n w
          = (Ok (),
             enqueue (active_ws w)
               (envelope "output_ctl" {[ "clear_before" := VStr tag ]}) w))
  ∧ (∀ w, clear_after n w
          = (Ok (),
             enqueue (active_ws w)
               (envelope "output_ctl" {[ "clear_after" := VStr tag ]}) w))
  ∧ (∀ w, scroll_to n w
          = (Ok (),
             enqueue (active_ws w)
               (envelope "output_ctl" {[ "scroll_to" := VStr tag ]}) w))
  ∧ (∀ m w, clear_range n m w
            = (Ok (),
               enqueue (active_ws w)
                 (envelope "output_ctl"
                    {[ "clear_range" :=
                         VList [VStr tag; VStr ("pywebio-anchor-" +:+ m)] ]})
                 w)
            ∧ clear_range m n w
              = (Ok (),
                 enqueue (active_ws w)
                   (envelope "output_ctl"
                      {[ "clear_range" :=
                           VList [VStr ("pywebio-anchor-" +:+ m); VStr tag] ]})
                   w))
  ∧ (∀ type before after other,
       positional_free other →
       build_spec type (Some n) before after other !! "anchor"
       = if Py.truthy_str n then Some (VStr tag) else None)
  ∧ (∀ type anchor after other,
       positional_free other →
       build_spec type anchor (Some n) after other !! "before"
       = if Py.truthy_str n then Some (VStr tag) else None)
  ∧ (∀ type anchor before other,
       positional_free other →
       build_spec type anchor before (Some n) other !! "after"
       = if Py.truthy_str n && negb (Py.truthy before)
         then Some (VStr tag) else None)
  ∧ tagged (Some n) = (if Py.truthy_str n then Some (VStr tag) else None)
  ∧ (∀ w type ws anchor before after other,
       positional_free other →
       transmits_tags (default (active_ws w) ws) anchor before after w
         (_put_content type ws anchor before after other w))
  ∧ (∀ w text inline anchor before after,
       transmits_tags (active_ws w) anchor before after w
         (put_text text inline anchor before after w))
  ∧ (∀ w html anchor before after,
       transmits_tags (active_ws w) anchor before after w
         (put_html html anchor before after w))
  ∧ (∀ w mdcontent strip_indent lstrip anchor before after,
       transmits_tags (active_ws w) anchor before after w
         (put_markdown mdcontent strip_indent lstrip anchor before after w))
  ∧ (∀ w content langage anchor before after,
       transmits_tags (active_ws w) anchor before after w
         (put_code content langage anchor before after w))
  ∧ (∀ w tdata header anchor before after,
       transmits_tags (active_ws w) anchor before after w
         (put_table tdata header anchor before after w))
  ∧ (∀ w buttons onclick small save mutex_mode anchor before after,
       transmits_tags (active_ws w) anchor before after w
         (put_buttons buttons onclick small save mutex_mode
            anchor before after w))
  ∧ (∀ w name content anchor before after,
       transmits_tags (active_ws w) anchor before after w
         (put_file name content anchor before after w))
  ∧ (∀ w anchor before after,
       both_set before after = false →
       (∀ type ws other,
          (_put_content type ws anchor before after other w).1 = Ok ())
       ∧ (∀ text inline,
            (put_text text inline anchor before after w).1 = Ok ())
       ∧ (∀ html, (put_html html anchor before after w).1 = Ok ())
       ∧ (∀ mdcontent strip_indent lstrip,
            (put_markdown mdcontent strip_indent lstrip
               anchor before after w).1 = Ok ())
       ∧ (∀ content langage,
            (put_code content langage anchor before after w).1 = Ok ())
       ∧ (∀ name content,
            (put_file name content anchor before after w).1 = Ok ())
       ∧ (∀ buttons onclick small save mutex_mode btns,
            _format_button buttons = Ok btns →
            (put_buttons buttons onclick small save mutex_mode
               anchor before after w).1 = Ok ())
       ∧ (∀ tdata header source,
            (table_source tdata header w).1 = Ok source →
            (put_table tdata header anchor before after w).1 = Ok ())).
Proof.
  intros tag. subst tag.
  assert (∀ key (v : pyval), key ≠ "anchor" → key ≠ "before" →
            key ≠ "after" → positional_free {[ key := v ]}) as Hone.
  { intros key v Ha Hb Hf.
    repeat split; apply lookup_singleton_ne; assumption. }
  repeat apply conj; intros.
  - reflexivity.
  - reflexivity.
  - reflexivity.
  - reflexivity.
  - reflexivity.
  - split; reflexivity.
  - rewrite build_spec_anchor by assumption. destruct n; reflexivity.
  - rewrite build_spec_before by assumption. destruct n; reflexivity.
  - rewrite build_spec_after by assumption.
    destruct (Py.truthy before), n; reflexivity.
  - destruct n; reflexivity.
  - rewrite _put_content_run.
    apply content_outcome_transmits_tags. assumption.
  - rewrite put_text_run. apply content_outcome_transmits_tags.
    repeat split; reflexivity.
  - rewrite put_html_run. apply content_outcome_transmits_tags, Hone; done.
  - rewrite put_markdown_run.
    apply content_outcome_transmits_tags, Hone; done.
  - rewrite put_code_run. apply content_outcome_transmits_tags, Hone; done.
  - rewrite put_table_run.
    destruct (table_source_quiet tdata header w) as (Hout & Hws & _).
    destruct (table_source tdata header w) as [[source|e] w'];
      cbn [snd] in *; [|intros Hok; discriminate].
    rewrite Hws.
    pose proof (content_outcome_transmits_tags (active_ws w) "markdown"
                  anchor before after {[ "content" := VStr source ]} w'
                  (Hone "content" (VStr source) ltac:(done) ltac:(done)
                     ltac:(done))) as H.
    unfold transmits_tags in *. rewrite Hout in H. exact H.
  - rewrite put_buttons_run. unfold transmits_tags.
    destruct (both_set before after) eqn:Hboth; [intros Hok; discriminate|].
    destruct (_format_button buttons) as [btns|e];
      [|intros Hok; discriminate].
    cbn [fst snd]. intros _. eexists. split; [reflexivity|].
    rewrite !message_spec_field_envelope.
    rewrite build_spec_anchor, build_spec_before, build_spec_after
      by (repeat split; reflexivity).
    repeat split; reflexivity.
  - rewrite put_file_run. apply content_outcome_transmits_tags.
    repeat split; reflexivity.
  - rename H into Hboth. repeat apply conj; intros.
    + rewrite _put_content_run. apply content_outcome_ok, Hboth.
    + rewrite put_text_run. apply content_outcome_ok, Hboth.
    + rewrite put_html_run. apply content_outcome_ok, Hboth.
    + rewrite put_markdown_run. apply content_outcome_ok, Hboth.
    + rewrite put_code_run. apply content_outcome_ok, Hboth.
    + rewrite put_file_run. apply content_outcome_ok, Hboth.
    + apply put_buttons_ok. eauto.
    + apply put_table_ok. eauto.
Qed.

(** The keyword arguments of the public content operations are free of the
    positioning names, so the three fields above are theirs too. *)
Lemma content_kwargs_positional_free :
  (∀ text inline,
     positional_free {[ "content" := VStr text; "inline" := VBool inline ]})
  ∧ (∀ content, positional_free {[ "content" := VStr content ]})
  ∧ (∀ callback_id btns small,
       positional_free
         {[ "callback_id" := VStr callback_id; "buttons" := VList btns;
            "small" := VBool small ]})
  ∧ (∀ name content,
       positional_free
         {[ "name" := VStr name; "content" := VStr content ]}).
Proof.
  repeat apply conj; intros; repeat split; reflexivity.
Qed.

(** ** C6: one envelope per call *)

Lemma put_buttons_one_or_none buttons onclick small save mutex_mode
    anchor before after w :
  one_or_none "output" (active_ws w) w
    (put_buttons buttons onclick small save mutex_mode anchor before after w).
Proof.
  rewrite put_buttons_run. unfold one_or_none.
  destruct (both_set before after); [reflexivity|].
  destruct (_format_button buttons) as [btns|e]; [|reflexivity].
  cbn [fst snd]. eexists _, _. repeat split; reflexivity.
Qed.

Lemma put_table_one_or_none tdata header anchor before after w :
  one_or_none "output" (active_ws w) w
    (put_table tdata header anchor before after w).
Proof.
  rewrite put_table_run.
  destruct (table_source_quiet tdata header w) as (Hout & Hws & _).
  destruct (table_source tdata header w) as [[source|e] w'];
    cbn [snd] in *; [|exact Hout].
  rewrite Hws.
  pose proof (content_outcome_one_or_none (active_ws w) before after
                (build_spec "markdown" anchor before after
                   {[ "content" := VStr source ]}) w') as H.
  unfold one_or_none, dispatched_one in *.
  rewrite Hout in H. exact H.
Qed.

(** C6: every call of a dispatching operation that returns has handed over
    exactly one message, and a call that raises none.  The message is a
    mapping whose [command] is [output] for the content operations and
    [output_ctl] for the environment and anchor operations, and whose
    [spec] is a mapping (for a control operation: of its one control key).
    It goes to the session handle given to [_put_content], and to the
    active session when none is given, as in every public operation.  The
    control operations always return; a content operation returns unless
    [before] and [after] are both set (or, for [put_buttons] and
    [put_table], the buttons or the table are malformed). *)
Theorem one_envelope_per_call (w : world) :
  let active := active_ws w in
  (∀ title, sends_control "title" (VStr title) w (set_title title w))
  ∧ (∀ enabled,
       sends_control "output_fixed_height" (VBool (default true enabled)) w
         (set_output_fixed_height enabled w))
  ∧ (∀ enabled,
       sends_control "auto_scroll_bottom" (VBool (default true enabled)) w
         (set_auto_scroll_bottom enabled w))
  ∧ (∀ name,
       sends_control "set_anchor" (VStr (_AnchorTPL name)) w
         (set_anchor name w))
  ∧ (∀ anchor,
       sends_control "clear_before" (VStr (_AnchorTPL anchor)) w
         (clear_before anchor w))
  ∧ (∀ anchor,
       sends_control "clear_after" (VStr (_AnchorTPL anchor)) w
         (clear_after anchor w))
  ∧ (∀ start_anchor end_anchor,
       sends_control "clear_range"
         (VList [VStr (_AnchorTPL start_anchor);
                 VStr (_AnchorTPL end_anchor)]) w
         (clear_range start_anchor end_anchor w))
  ∧ (∀ anchor,
       sends_control "scroll_to" (VStr (_AnchorTPL anchor)) w
         (scroll_to anchor w))
  ∧ (∀ type ws anchor before after other,
       let out := _put_content type (Some ws) anchor before after other w in
       one_or_none "output" ws w out
       ∧ (out.1 = Ok () ↔ both_set before after = false))
  ∧ (∀ type anchor before after other,
       let out := _put_content type None anchor before after other w in
       one_or_none "output" active w out
       ∧ (out.1 = Ok () ↔ both_set before after = false))
  ∧ (∀ text inline anchor before after,
       let out := put_text text inline anchor before after w in
       one_or_none "output" active w out
       ∧ (out.1 = Ok () ↔ both_set before after = false))
  ∧ (∀ html anchor before after,
       let out := put_html html anchor before after w in
       one_or_none "output" active w out
       ∧ (out.1 = Ok () ↔ both_set before after = false))
  ∧ (∀ mdcontent strip_indent lstrip anchor before after,
       let out :=
         put_markdown mdcontent strip_indent lstrip anchor before after w in
       one_or_none "output" active w out
       ∧ (out.1 = Ok () ↔ both_set before after = false))
  ∧ (∀ content langage anchor before after,
       let out := put_code content langage anchor before after w in
       one_or_none "output" active w out
       ∧ (out.1 = Ok () ↔ both_set before after = false))
  ∧ (∀ name content anchor before after,
       let out := put_file name content anchor before after w in
       one_or_none "output" active w out
       ∧ (out.1 = Ok () ↔ both_set before after = false))
  ∧ (∀ buttons onclick small save mutex_mode anchor before after,
       let out :=
         put_buttons buttons onclick small save mutex_mode
           anchor before after w in
       one_or_none "output" active w out
       ∧ (out.1 = Ok ()
          ↔ both_set before after = false
            ∧ ∃ btns, _format_button buttons = Ok btns))
  ∧ (∀ tdata header anchor before after,
       let out := put_table tdata header anchor before after w in
       one_or_none "output" active w out
       ∧ (out.1 = Ok ()
          ↔ both_set before after = false
            ∧ ∃ source, (table_source tdata header w).1 = Ok source)).
Proof.
  intros active. subst active.
  repeat apply conj; intros; try apply send_msg_sends_control; subst out.
  - rewrite _put_content_run.
    split; [apply content_outcome_one_or_none | apply content_outcome_ok].
  - rewrite _put_content_run.
    split; [apply content_outcome_one_or_none | apply content_outcome_ok].
  - rewrite put_text_run.
    split; [apply content_outcome_one_or_none | apply content_outcome_ok].
  - rewrite put_html_run.
    split; [apply content_outcome_one_or_none | apply content_outcome_ok].
  - rewrite put_markdown_run.
    split; [apply content_outcome_one_or_none | apply content_outcome_ok].
  - rewrite put_code_run.
    split; [apply content_outcome_one_or_none | apply content_outcome_ok].
  - rewrite put_file_run.
    split; [apply content_outcome_one_or_none | apply content_outcome_ok].
  - split; [apply put_buttons_one_or_none | apply put_buttons_ok].
  - split; [apply put_table_one_or_none | apply put_table_ok].
Qed.

(** ** C7: the code fence *)

(** C7: [put_code(content, langage)] builds three backticks, the language
    tag, a newline, the content, a newline and three backticks, and hands
    that text to [put_markdown] with no stripping, so it is the [content]
    of the [markdown] instruction sent; the language is the empty string
    when it is not supplied; for [x=1] in [python] the text is the three
    lines shown. *)
Theorem put_code_fence (content : string) (langage : option string)
    (anchor before after : option string) (w : world) :
  let tag := default EmptyString langage in
  let code := "```" +:+ tag +:+ Py.nl +:+ content +:+ Py.nl +:+ "```" in
  put_code content langage anchor before after w
  = put_markdown code None None anchor before after w
  ∧ put_code content langage anchor before after w
    = content_outcome (active_ws w) before after
        (build_spec "markdown" anchor before after
           {[ "content" := VStr code ]}) w
  ∧ build_spec "markdown" anchor before after
      {[ "content" := VStr code ]} !! "content" = Some (VStr code)
  ∧ build_spec "markdown" anchor before after
      {[ "content" := VStr code ]} !! "type" = Some (VStr "markdown")
  ∧ put_code content None anchor before after w
    = put_code content (Some EmptyString) anchor before after w
  ∧ code_fence "python" "x=1" = "```python
x=1
```".
Proof.
  intros tag code. subst tag code.
  repeat apply conj.
  - reflexivity.
  - apply put_code_run.
  - rewrite build_spec_field by done. reflexivity.
  - rewrite build_spec_field by done. reflexivity.
  - reflexivity.
  - reflexivity.
Qed.

(** ** C8: the file payload *)

(** C8: [put_file(n, c)] sends one [file] instruction (none when [before]
    and [after] are both set) whose [name] field is [n] and whose [content]
    field is the base64 text of [c]: the ASCII decoding of
    [b64encode(c)], which [b64decode] maps back to [c]. *)
Theorem put_file_base64_roundtrip (name : string) (content : list Byte.byte)
    (anchor before after : option string) (w : world) :
  let text := b64_text content in
  let spec :=
    build_spec "file" anchor before after
      {[ "name" := VStr name; "content" := VStr text ]} in
  Base64.decode_ascii (Base64.b64encode content) = Some text
  ∧ Base64.b64decode_str text = Some content
  ∧ put_file name content anchor before after w
    = content_outcome (active_ws w) before after spec w
  ∧ spec !! "type" = Some (VStr "file")
  ∧ spec !! "name" = Some (VStr name)
  ∧ spec !! "content" = Some (VStr text).
Proof.
  intros text spec. subst text spec.
  destruct (Base64Facts.b64_text_roundtrip content) as [Hdec Hback].
  repeat apply conj.
  - exact Hdec.
  - exact Hback.
  - apply put_file_run.
  - rewrite build_spec_field by done. reflexivity.
  - rewrite build_spec_field by done. reflexivity.
  - rewrite build_spec_field by done. reflexivity.
Qed.

Example put_file_hi :
  b64_text [Byte.x68; Byte.x69] = "aGk="
  ∧ Base64.b64decode_str "aGk=" = Some [Byte.x68; Byte.x69].
Proof. split; vm_compute; reflexivity. Qed.

(** ** C4: [strip_indent] and [lstrip] *)

(** C4, as stated, fails: the lines are split and joined again, so the
    final newline of the content is not part of the result. *)
Lemma strip_indent_drops_final_newline :
  markdown_source h1_body 4 false ≠ "# H1
body
".
Proof. vm_compute. discriminate. Qed.

(** C4 (amended): on the content of two lines indented by four spaces,
    [strip_indent=4] and [lstrip=True] both give the two lines without
    their indent and without a final newline.  A line whose first
    [strip_indent] characters are not that many spaces (in particular one
    with a non-space among them) is left unchanged by the [strip_indent]
    pass, while [lstrip] removes its leading whitespace, all of it; the two
    results differ exactly when the line begins with a whitespace
    character, as a line indented by two spaces does. *)
Theorem markdown_strip_options :
  markdown_source h1_body 4 false = "# H1
body"
  ∧ markdown_source h1_body 0 true = "# H1
body"
  ∧ (∀ n line, not_all_spaces n line →
       Py.slice_to n line ≠ Py.str_repeat " " n)
  ∧ (∀ n line,
       Py.slice_to n line ≠ Py.str_repeat " " n →
       strip_indent_line n line = line
       ∧ (∃ ws, line = ws +:+ Py.lstrip line ∧ all_space ws = true)
       ∧ starts_with_space (Py.lstrip line) = false
       ∧ (strip_indent_line n line ≠ Py.lstrip line
          ↔ starts_with_space line = true))
  ∧ strip_indent_line 4 "  body" = "  body"
  ∧ Py.lstrip "  body" = "body"
  ∧ markdown_source "  body" 4 false = "  body"
  ∧ markdown_source "  body" 0 true = "body".
Proof.
  repeat apply conj; try (vm_compute; reflexivity).
  - apply not_all_spaces_guard.
  - intros n line Hguard.
    rewrite (strip_indent_line_unchanged n line Hguard).
    repeat apply conj.
    + reflexivity.
    + apply lstrip_removes_prefix.
    + apply lstrip_no_leading_space.
    + intros Hne. destruct (starts_with_space line) eqn:Hs; [reflexivity|].
      exfalso. apply Hne. symmetry. apply lstrip_fixed, Hs.
    + intros Hs Heq. symmetry in Heq. apply lstrip_fixed in Heq. congruence.
Qed.

Lemma markdown_strip_options_witness :
  strip_indent_line 4 "  body" = "  body"
  ∧ strip_indent_line 4 "  body" ≠ Py.lstrip "  body".
Proof.
  destruct markdown_strip_options as (_ & _ & _ & Hline & _).
  destruct (Hline 4%Z "  body") as (Hsame & _ & _ & Hdiff).
  - vm_compute. discriminate.
  - split; [exact Hsame | apply Hdiff; reflexivity].
Defined.

(** ** C2 and C10: the single-row table *)


Lemma put_table_single_row l header r anchor before after w :
  Py.truthy_list header = false →
  lists w !! l = Some [r] →
  put_table l header anchor before after w =
  content_outcome (active_ws w) before after
    (build_spec "markdown" anchor before after
       {[ "content" := VStr (table_markdown (padded_first r) (padded r)) ]})
    (set_list l (padded r) w).
Proof.
  intros Hh Hl. rewrite put_table_run.
  rewrite (table_source_no_header l header [r] w Hh Hl). reflexivity.
Qed.

(** C2 (the code departs from it): on the one-row table [[["x", "y"]]]
    with no header, [put_table] splices two one-space strings, not one row
    of two cells, in front of the row.  The first string is then read as
    the header row and the second as a body row, so the Markdown sent has
    four lines: a header of one cell, a separator of one cell, a body line
    of one cell, and the line of [x] and [y]. *)
Theorem put_table_single_row_four_lines (l : loc) (w : world) :
  lists w !! l = Some [xy_row] →
  let source := "| |
|----|
| |
|x|y|" in
  put_table l None None None None w
  = (Ok (),
     enqueue (active_ws w)
       (envelope "output"
          (build_spec "markdown" None None None
             {[ "content" := VStr source ]}))
       (set_list l [RStr " "; RStr " "; xy_row] w))
  ∧ Py.splitlines source = ["| |"; "|----|"; "| |"; "|x|y|"].
Proof.
  intros Hl source. subst source. split; [|reflexivity].
  rewrite (put_table_single_row l None xy_row None None None w eq_refl Hl).
  reflexivity.
Qed.

Lemma put_table_single_row_four_lines_witness :
  (put_table 0%nat None None None None (sample_world [xy_row])).1 = Ok ().
Proof.
  rewrite (proj1 (put_table_single_row_four_lines 0%nat
                    (sample_world [xy_row]) eq_refl)).
  reflexivity.
Defined.




(** ** C3: button normalization *)

Lemma _format_button_one (btn : pyval) :
  _format_button [btn] =
  match btn with
  | VDict d =>
      if bool_decide (is_Some (d !! "value"))
         && bool_decide (is_Some (d !! "label"))
      then Ok [btn]
      else Raise (AssertionError "actions item must have value and label key")
  | VList items =>
      if (length items =? 2)%nat
      then Ok [VDict (dict_zip ["value"; "label"] items)]
      else Raise (AssertionError "actions item format error")
  | _ => Ok [VDict {[ "value" := btn; "label" := btn ]}]
  end.
Proof.
  unfold _format_button. cbn [_format_button_loop].
  destruct btn; try reflexivity.
  - destruct (length items =? 2)%nat; reflexivity.
  - destruct (bool_decide (is_Some (d !! "value"))
              && bool_decide (is_Some (d !! "label"))); reflexivity.
Qed.

(** C3 (the code departs from it): [_format_button] tests
    [isinstance(btn, list)], so the pair [("b", "Bee")], a tuple, is not
    split into value and label: it is taken as a bare scalar and becomes
    both the value and the label of its button, and a tuple of any other
    length passes without an error.  The scalar and the mapping of the same
    input are normalized as documented, and so is the pair when it is
    written as a list; a mapping without [value] or [label] and a list of
    another length than two fail with the assertion error; the order of
    the input is kept. *)
Theorem format_button_tuple_is_scalar :
  _format_button abc_buttons
  = Ok [VDict {[ "value" := VStr "a"; "label" := VStr "a" ]};
        VDict {[ "value" := VTuple [VStr "b"; VStr "Bee"];
                 "label" := VTuple [VStr "b"; VStr "Bee"] ]};
        VDict {[ "value" := VStr "c"; "label" := VStr "Cee" ]}]
  ∧ _format_button abc_buttons ≠ Ok abc_normalized
  ∧ _format_button abc_buttons_list_pair = Ok abc_normalized
  ∧ (∀ items,
       _format_button [VTuple items]
       = Ok [VDict {[ "value" := VTuple items; "label" := VTuple items ]}])
  ∧ (∀ d, d !! "value" = None ∨ d !! "label" = None →
       _format_button [VDict d]
       = Raise (AssertionError "actions item must have value and label key"))
  ∧ (∀ items, length items ≠ 2%nat →
       _format_button [VList items]
       = Raise (AssertionError "actions item format error")).
Proof.
  assert (_format_button abc_buttons
          = Ok [VDict {[ "value" := VStr "a"; "label" := VStr "a" ]};
                VDict {[ "value" := VTuple [VStr "b"; VStr "Bee"];
                         "label" := VTuple [VStr "b"; VStr "Bee"] ]};
                VDict {[ "value" := VStr "c"; "label" := VStr "Cee" ]}])
    as Habc by (vm_compute; reflexivity).
  repeat apply conj.
  - exact Habc.
  - rewrite Habc. intros Heq.
    apply (f_equal normalized_fields) in Heq.
    vm_compute in Heq. discriminate.
  - vm_compute. reflexivity.
  - intros items. apply _format_button_one.
  - intros d Hd. rewrite _format_button_one.
    destruct Hd as [-> | ->]; rewrite ?andb_false_r; reflexivity.
  - intros items Hlen. rewrite _format_button_one.
    destruct (Nat.eqb_spec (length items) 2); [contradiction | reflexivity].
Qed.

(** * Further properties of the table *)

(** X3: on a table of two or more rows and no header, [put_table] leaves
    the caller's list alone and sends (unless [before] and [after] are both
    set) one [markdown] instruction whose content is the header line of the
    first row, a separator line with one [----] per column, and one line
    per further row, joined by newlines. *)
Theorem put_table_wire_format (l : loc) (r1 r2 : row) (rest : list row)
    (anchor before after : option string) (w : world) :
  lists w !! l = Some (r1 :: r2 :: rest) →
  let source :=
    Py.join Py.nl
      (table_line (map quote (iter_row r1))
         :: table_line (repeat "----" (len_row r1))
         :: map (λ tr, table_line (map quote (iter_row tr))) (r2 :: rest)) in
  put_table l None anchor before after w
  = content_outcome (active_ws w) before after
      (build_spec "markdown" anchor before after
         {[ "content" := VStr source ]}) w.
Proof.
  intros Hl source. subst source. rewrite put_table_run.
  rewrite (table_source_no_header l None (r1 :: r2 :: rest) w eq_refl Hl).
  reflexivity.
Qed.

Lemma put_table_wire_format_witness :
  put_table 0%nat None None None None (sample_world two_by_two)
  = (Ok (),
     enqueue 1%nat
       (envelope "output"
          (build_spec "markdown" None None None
             {[ "content" := VStr "|a|b|
|----|----|
|1|2|" ]}))
       (sample_world two_by_two)).
Proof.
  exact (put_table_wire_format 0%nat (RList [CStr "a"; CStr "b"])
           (RList [CInt 1; CInt 2]) [] None None None
           (sample_world two_by_two) eq_refl).
Defined.

(** * Further properties of the buttons *)

Lemma _format_button_loop_find (buttons btns : list pyval) :
  _format_button_loop buttons btns =
  match find (λ btn, negb (well_formed_button btn)) buttons with
  | Some btn => Raise (button_error btn)
  | None => Ok (btns ++ map normalize_button buttons)
  end.
Proof.
  revert btns. induction buttons as [|btn rest IH]; intros btns.
  - cbn. rewrite app_nil_r. reflexivity.
  - cbn [_format_button_loop find map].
    assert (∀ b, _format_button_loop rest (btns ++ [b])
                 = match find (λ btn, negb (well_formed_button btn)) rest with
                   | Some btn' => Raise (button_error btn')
                   | None => Ok (btns ++ b :: map normalize_button rest)
                   end) as Hrest.
    { intros b. rewrite IH, <- app_assoc. reflexivity. }
    destruct btn; cbn [well_formed_button negb normalize_button button_error];
      try (exact (Hrest _)).
    + destruct (length items =? 2)%nat; cbn [negb]; [exact (Hrest _) | reflexivity].
    + destruct (bool_decide (is_Some (d !! "value"))
                && bool_decide (is_Some (d !! "label")));
        cbn [negb]; [exact (Hrest _) | reflexivity].
Qed.

(** X4: [_format_button] returns, in the order of the input, the normal
    form of every item when all items are well formed, and otherwise raises
    the assertion error of the first ill-formed item: a mapping without
    [value] or [label], or a list whose length is not two. *)
Theorem format_button_characterized (buttons : list pyval) :
  _format_button buttons =
  match find (λ btn, negb (well_formed_button btn)) buttons with
  | Some btn => Raise (button_error btn)
  | None => Ok (map normalize_button buttons)
  end.
Proof. unfold _format_button. apply _format_button_loop_find. Qed.

Lemma normalize_button_normalized (btn : pyval) :
  well_formed_button btn = true → is_normalized (normalize_button btn) = true.
Proof.
  destruct btn; cbn [well_formed_button normalize_button is_normalized];
    try reflexivity; [|auto].
  intros Hlen. destruct items as [|a [|b [|c rest]]]; try discriminate.
  reflexivity.
Qed.

Lemma normalized_fixed (btn : pyval) :
  is_normalized btn = true →
  well_formed_button btn = true ∧ normalize_button btn = btn.
Proof. destruct btn; try discriminate. cbn. auto. Qed.

Lemma find_ill_formed_none (buttons : list pyval) :
  find (λ btn, negb (well_formed_button btn)) buttons = None
  ↔ Forall (λ btn, well_formed_button btn = true) buttons.
Proof.
  induction buttons as [|btn rest IH]; cbn [find].
  - split; [constructor | reflexivity].
  - destruct (well_formed_button btn) eqn:Hbtn; cbn [negb].
    + rewrite IH. split; [constructor; assumption | now inversion 1].
    + split; [discriminate | inversion 1; congruence].
Qed.

(** X5: the buttons [_format_button] returns are as many as the items it
    was given, each is a mapping that has both a [value] and a [label], and
    normalizing them again returns them unchanged. *)
Theorem format_button_normal_form (buttons btns : list pyval) :
  _format_button buttons = Ok btns →
  length btns = length buttons
  ∧ Forall (λ btn, is_normalized btn = true) btns
  ∧ _format_button btns = Ok btns.
Proof.
  unfold _format_button. rewrite _format_button_loop_find. cbn [app].
  destruct (find _ buttons) eqn:Hfind; [discriminate|].
  intros [= <-]. apply find_ill_formed_none in Hfind.
  assert (Forall (λ btn, is_normalized btn = true)
            (map normalize_button buttons)) as Hnorm.
  { apply Forall_map. eapply Forall_impl; [exact Hfind|].
    intros btn. apply normalize_button_normalized. }
  repeat apply conj.
  - apply length_map.
  - exact Hnorm.
  - rewrite _format_button_loop_find. cbn [app].
    assert (Forall (λ btn, well_formed_button btn = true)
              (map normalize_button buttons)) as Hwf.
    { eapply Forall_impl; [exact Hnorm|]. intros btn Hb.
      apply normalized_fixed, Hb. }
    apply find_ill_formed_none in Hwf. rewrite Hwf. f_equal.
    clear Hwf Hfind. induction Hnorm as [|b bs Hb _ IH]; [reflexivity|].
    cbn [map]. rewrite IH. f_equal. apply normalized_fixed, Hb.
Qed.

Lemma format_button_normal_form_witness :
  _format_button abc_normalized = Ok abc_normalized.
Proof.
  exact (proj2 (proj2 (format_button_normal_form abc_buttons_list_pair
                         abc_normalized ltac:(vm_compute; reflexivity)))).
Defined.

(** X6: [put_buttons] validates before it registers.  A call that raises
    (because [before] and [after] are both set, or an item is ill formed)
    leaves the world as it was: no callback is registered and nothing is
    dispatched.  A call that returns has registered exactly one callback,
    with the handler, the [save] payload and the mutual-exclusion flag it
    was given, and its one [buttons] instruction carries the identifier
    returned for that registration, the normalized buttons and the [small]
    flag. *)
Theorem put_buttons_registers_once (buttons : list pyval) (onclick : handler)
    (small : option bool) (save : option pyval) (mutex_mode : option bool)
    (anchor before after : option string) (w : world) :
  let out :=
    put_buttons buttons onclick small save mutex_mode anchor before after w in
  match out.1 with
  | Ok _ =>
      ∃ btns spec,
        _format_button buttons = Ok btns
        ∧ callbacks out.2
          = callbacks w ++
              [{| reg_onclick := onclick;
                  reg_save := default VNone save;
                  reg_mutex_mode := default false mutex_mode |}]
        ∧ outbox out.2 = outbox w ++ [(active_ws w, envelope "output" spec)]
        ∧ spec !! "type" = Some (VStr "buttons")
        ∧ spec !! "callback_id"
          = Some (VStr (callback_token (length (callbacks w))))
        ∧ spec !! "buttons" = Some (VList btns)
        ∧ spec !! "small" = Some (VBool (default false small))
  | Raise _ => out.2 = w
  end.
Proof.
  intros out. subst out. rewrite put_buttons_run.
  destruct (both_set before after); [reflexivity|].
  destruct (_format_button buttons) as [btns|e]; [|reflexivity].
  cbn [fst snd]. exists btns. eexists.
  repeat apply conj; try reflexivity;
    rewrite build_spec_field by done; reflexivity.
Qed.

(** * Further properties of the instruction *)

(** X7: an instruction never carries both a [before] and an [after] field,
    whatever the arguments: [after] is only written when [before] is not
    truthy.  The tag of a field that is present is that of its argument. *)
Theorem before_after_exclusive (type : string)
    (anchor before after : option string) (other : gmap string pyval) :
  positional_free other →
  let spec := build_spec type anchor before after other in
  ¬ (is_Some (spec !! "before") ∧ is_Some (spec !! "after"))
  ∧ (∀ v, spec !! "before" = Some v →
       ∃ c s, before = Some (String c s)
              ∧ v = VStr (_AnchorTPL (String c s)))
  ∧ (∀ v, spec !! "after" = Some v →
       ∃ c s, after = Some (String c s)
              ∧ v = VStr (_AnchorTPL (String c s))
              ∧ Py.truthy before = false).
Proof.
  intros Hfree spec. subst spec.
  rewrite build_spec_before, build_spec_after by assumption.
  destruct before as [[|c1 s1]|], after as [[|c2 s2]|];
    cbn [Py.truthy Py.truthy_str Py.if_truthy];
    repeat apply conj;
    try (intros [[? ?] [? ?]]; discriminate);
    try (intros v ?; discriminate);
    try (intros v [= <-]; eauto 6).
Qed.

Lemma before_after_exclusive_witness :
  build_spec "text" None (Some "top") None
    {[ "content" := VStr "hello" ]} !! "after" = None.
Proof.
  pose proof (before_after_exclusive "text" None (Some "top") None
                {[ "content" := VStr "hello" ]}
                (conj eq_refl (conj eq_refl eq_refl))) as H.
  cbv zeta in H. destruct H as (Hnot & _ & _).
  destruct (build_spec "text" None (Some "top") None
              {[ "content" := VStr "hello" ]} !! "after") eqn:Hafter;
    [|reflexivity].
  exfalso. apply Hnot. split; [|eauto].
  rewrite build_spec_before by (repeat split; reflexivity). cbn. eauto.
Defined.

(** * What the operations leave alone *)







(** * Projection and outcome of a table call *)

Lemma project_rows_dicts (k : string) (header : list string)
    (tdata : list row) :
  project_rows (k :: header) tdata =
  if forallb is_dict_row tdata
  then Ok (map (λ r, RList (projected_cells (k :: header) r)) tdata)
  else Raise AttributeError.
Proof.
  induction tdata as [|r rest IH]; [reflexivity|].
  cbn [project_rows forallb map].
  destruct r as [cells|items|s]; cbn [project_row is_dict_row andb];
    try reflexivity.
  unfold mbind at 1, result_bind at 1. rewrite IH.
  destruct (forallb is_dict_row rest); reflexivity.
Qed.

Lemma projected_cells_length (columns : list string) (tdata : list row) :
  forallb is_dict_row tdata = true →
  Forall (λ r, len_row (RList (projected_cells columns r)) = length columns)
    tdata.
Proof.
  induction tdata as [|r rest IH]; intros Hall; [constructor|].
  cbn [forallb] in Hall. apply andb_true_iff in Hall as [Hr Hrest].
  constructor; [|apply IH, Hrest].
  destruct r as [cells|items|s]; try discriminate.
  unfold len_row. cbn [iter_row projected_cells]. apply length_map.
Qed.

(** X1: under a non-empty header the projection succeeds exactly when every
    row is a [dict] (it raises [AttributeError] otherwise), keeps the
    number and the order of the rows, and makes the table rectangular:
    every projected row has one cell per header name, whatever keys the
    [dict] had. *)
Theorem projection_rectangular (k : string) (header : list string)
    (tdata : list row) :
  let columns := k :: header in
  (forallb is_dict_row tdata = true →
     ∃ projected,
       project_rows columns tdata = Ok projected
       ∧ projected = map (λ r, RList (projected_cells columns r)) tdata
       ∧ length projected = length tdata
       ∧ Forall (λ r, len_row r = length columns) projected)
  ∧ (forallb is_dict_row tdata = false →
       project_rows columns tdata = Raise AttributeError).
Proof.
  intros columns. subst columns. rewrite project_rows_dicts. split.
  - intros Hall. rewrite Hall. eexists. repeat apply conj; try reflexivity.
    + apply length_map.
    + apply Forall_map. apply projected_cells_length, Hall.
  - intros Hall. rewrite Hall. reflexivity.
Qed.

(** X10: the outcome of [put_table] on a list object holding [rows].  With
    a non-empty header and a row that is not a [dict] it raises
    [AttributeError]; otherwise, on an empty table it raises [IndexError];
    otherwise it raises the assertion error when [before] and [after] are
    both set, and returns in every other case. *)
Theorem put_table_outcome (l : loc) (header : option (list string))
    (anchor before after : option string) (rows : list row) (w : world) :
  lists w !! l = Some rows →
  (put_table l header anchor before after w).1 =
  if Py.truthy_list header && negb (forallb is_dict_row rows)
  then Raise AttributeError
  else match rows with
       | [] => Raise IndexError
       | _ :: _ =>
           if both_set before after
           then Raise (AssertionError before_after_msg)
           else Ok ()
       end.
Proof.
  intros Hl.
  assert (∀ (l0 : loc) (rs : list row) (w0 : world),
            lists w0 !! l0 = Some rs →
            (put_table l0 None anchor before after w0).1
            = match rs with
              | [] => Raise IndexError
              | _ :: _ =>
                  if both_set before after
                  then Raise (AssertionError before_after_msg)
                  else Ok ()
              end) as Hplain.
  { intros l0 rs w0 Hl0. rewrite put_table_run.
    rewrite (table_source_no_header l0 None rs w0 eq_refl Hl0).
    destruct rs as [|r [|r' rest]]; [reflexivity | |];
      unfold content_outcome; destruct (both_set before after); reflexivity. }
  destruct (Py.truthy_list header) eqn:Hh; cbn [andb].
  - destruct header as [[|k h]|]; try discriminate.
    unfold put_table at 1. unfold mbind at 1, M_bind at 1.
    rewrite (table_source_header l (k :: h) rows w Hh Hl).
    rewrite project_rows_dicts.
    destruct (forallb is_dict_row rows); cbn [negb]; [|reflexivity].
    cbn zeta. set (l' := fresh (dom (lists w))).
    set (projected := map (λ r, RList (projected_cells (k :: h) r)) rows).
    transitivity
      (put_table l' None anchor before after (set_list l' projected w)).1;
      [reflexivity|].
    rewrite (Hplain l' projected (set_list l' projected w)
               (lookup_insert_eq _ _ _)).
    subst projected. destruct rows; reflexivity.
  - specialize (Hplain l rows w Hl). rewrite put_table_run in Hplain.
    rewrite put_table_run.
    rewrite (table_source_no_header l header rows w Hh Hl).
    rewrite (table_source_no_header l None rows w eq_refl Hl) in Hplain.
    exact Hplain.
Qed.

Lemma put_table_outcome_witness :
  (put_table 0%nat (Some ["b"; "a"]) None None None
     (sample_world ab_dict_rows)).1 = Ok ()
  ∧ (put_table 0%nat (Some ["b"; "a"]) None None None
       (sample_world two_by_two)).1 = Raise AttributeError.
Proof.
  split.
  - exact (put_table_outcome 0%nat (Some ["b"; "a"]) None None None
             ab_dict_rows (sample_world ab_dict_rows) eq_refl).
  - exact (put_table_outcome 0%nat (Some ["b"; "a"]) None None None
             two_by_two (sample_world two_by_two) eq_refl).
Defined.

(** * Further properties of the Markdown stripping *)

Lemma str_take_drop (k : nat) (s : string) :
  Py.str_take k s +:+ Py.str_drop k s = s.
Proof.
  revert s. induction k as [|k IH]; intros [|c s]; try reflexivity.
  cbn [Py.str_take Py.str_drop].
  change (String c (Py.str_take k s) +:+ Py.str_drop k s)
    with (String c (Py.str_take k s +:+ Py.str_drop k s)).
  rewrite IH. reflexivity.
Qed.

Lemma str_take_empty_drop (k : nat) (s : string) :
  Py.str_take k s = EmptyString → Py.str_drop k s = s.
Proof. destruct k, s; try reflexivity. discriminate. Qed.

Lemma str_repeat_S (k : nat) :
  Py.str_repeat " " (Z.of_nat (S k))
  = String " " (Py.str_repeat " " (Z.of_nat k)).
Proof.
  unfold Py.str_repeat. rewrite !Nat2Z.id. apply concat_repeat_space_S.
Qed.

Lemma slice_index_nat (k len : nat) : Py.slice_index (Z.of_nat k) len = k.
Proof.
  unfold Py.slice_index. destruct (Z.of_nat k <? 0)%Z eqn:Hk; lia.
Qed.

Lemma take_drop_spaces (k : nat) (rest : string) :
  Py.str_take k (Py.str_repeat " " (Z.of_nat k) +:+ rest)
  = Py.str_repeat " " (Z.of_nat k)
  ∧ Py.str_drop k (Py.str_repeat " " (Z.of_nat k) +:+ rest) = rest.
Proof.
  induction k as [|k [IHt IHd]]; [destruct rest; split; reflexivity|].
  rewrite str_repeat_S.
  change (String " " (Py.str_repeat " " (Z.of_nat k)) +:+ rest)
    with (String " " (Py.str_repeat " " (Z.of_nat k) +:+ rest)).
  cbn [Py.str_take Py.str_drop]. rewrite IHt, IHd. split; reflexivity.
Qed.

(** X11: what the [strip_indent] pass does to a line.  For [n >= 0], a line
    that begins with [n] spaces loses exactly those [n] spaces, and any
    line the pass changes began with [n] spaces, which are all it lost; a
    negative [strip_indent] changes no line. *)
Theorem strip_indent_line_exact :
  (∀ (k : nat) (rest : string),
     strip_indent_line (Z.of_nat k)
       (Py.str_repeat " " (Z.of_nat k) +:+ rest) = rest)
  ∧ (∀ (n : Z) (line : string),
       (0 ≤ n)%Z → strip_indent_line n line ≠ line →
       line = Py.str_repeat " " n +:+ strip_indent_line n line)
  ∧ (∀ (n : Z) (line : string),
       (n < 0)%Z → strip_indent_line n line = line).
Proof.
  repeat apply conj.
  - intros k rest. unfold strip_indent_line, Py.slice_to, Py.slice_from.
    rewrite slice_index_nat.
    destruct (take_drop_spaces k rest) as [-> ->].
    rewrite String.eqb_refl. reflexivity.
  - intros n line Hn Hchanged. unfold strip_indent_line in *.
    destruct (String.eqb_spec (Py.slice_to n line) (Py.str_repeat " " n))
      as [Heq|Hne]; [|contradiction].
    rewrite <- Heq. unfold Py.slice_to, Py.slice_from.
    symmetry. apply str_take_drop.
  - intros n line Hn. unfold strip_indent_line.
    destruct (String.eqb_spec (Py.slice_to n line) (Py.str_repeat " " n))
      as [Heq|Hne]; [|reflexivity].
    unfold Py.slice_to, Py.slice_from, Py.str_repeat in *.
    replace (Z.to_nat n) with 0%nat in Heq by lia. cbn in Heq.
    apply str_take_empty_drop, Heq.
Qed.

Lemma no_break_app (a b : string) :
  no_break (a +:+ b) = no_break a && no_break b.
Proof.
  induction a as [|c a IH]; [reflexivity|].
  change (String c a +:+ b) with (String c (a +:+ b)).
  cbn [no_break]. rewrite IH, andb_assoc. reflexivity.
Qed.

Lemma only_lf_breaks_app (a b : string) :
  only_lf_breaks (a +:+ b) = only_lf_breaks a && only_lf_breaks b.
Proof.
  induction a as [|c a IH]; [reflexivity|].
  change (String c a +:+ b) with (String c (a +:+ b)).
  cbn [only_lf_breaks]. rewrite IH, andb_assoc. reflexivity.
Qed.

Lemma no_break_only_lf (s : string) :
  no_break s = true → only_lf_breaks s = true.
Proof.
  induction s as [|c s IH]; [reflexivity|]. cbn [no_break only_lf_breaks].
  intros [Hc Hs]%andb_true_iff. rewrite Hc, (IH Hs). reflexivity.
Qed.

(** The lines [splitlines] returns hold no line boundary. *)
Lemma splitlines_from_no_break (s : string) :
  (∀ cur, no_break cur = true →
     Forall (λ line, no_break line = true) (Py.splitlines_from cur s))
  ∧ (∀ c cur, no_break cur = true →
       Forall (λ line, no_break line = true)
         (Py.splitlines_from cur (String c s))).
Proof.
  induction s as [|a s [IH1 IH2]].
  - split.
    + intros [|c cur] Hcur; cbn; [constructor | repeat constructor; exact Hcur].
    + intros c cur Hcur. cbn [Py.splitlines_from].
      destruct (Py.is_linebreak c) eqn:Hc.
      * repeat constructor. exact Hcur.
      * assert (no_break (cur +:+ String c EmptyString) = true) as Hcur'
          by (rewrite no_break_app, Hcur; cbn [no_break]; rewrite Hc;
              reflexivity).
        destruct (cur +:+ String c EmptyString); cbn;
          [constructor | repeat constructor; exact Hcur'].
  - split; [intros cur Hcur; apply IH2, Hcur|].
    intros c cur Hcur. cbn [Py.splitlines_from].
    destruct (Py.is_linebreak c) eqn:Hc.
    + constructor; [exact Hcur|].
      destruct (Py.is_cr c && Py.is_lf a); [apply IH1 | apply IH2];
        reflexivity.
    + apply IH2. rewrite no_break_app, Hcur. cbn [no_break].
      rewrite Hc. reflexivity.
Qed.

Lemma splitlines_no_break (s : string) :
  Forall (λ line, no_break line = true) (Py.splitlines s).
Proof. apply (proj1 (splitlines_from_no_break s)). reflexivity. Qed.

Lemma str_drop_no_break (k : nat) (s : string) :
  no_break s = true → no_break (Py.str_drop k s) = true.
Proof.
  revert s. induction k as [|k IH]; intros [|c s] Hs; try exact Hs.
  cbn [Py.str_drop]. apply IH. cbn [no_break] in Hs.
  apply andb_true_iff in Hs. apply Hs.
Qed.

Lemma strip_indent_line_no_break (n : Z) (line : string) :
  no_break line = true → no_break (strip_indent_line n line) = true.
Proof.
  intros Hline. unfold strip_indent_line.
  destruct (String.eqb _ _); [|exact Hline].
  apply str_drop_no_break, Hline.
Qed.

Lemma lstrip_no_break (s : string) :
  no_break s = true → no_break (Py.lstrip s) = true.
Proof.
  induction s as [|c s IH]; intros Hs; [reflexivity|].
  cbn [Py.lstrip]. destruct (Py.is_space c); [|exact Hs].
  apply IH. cbn [no_break] in Hs. apply andb_true_iff in Hs. apply Hs.
Qed.

Lemma join_nl_only_lf (lines : list string) :
  Forall (λ line, no_break line = true) lines →
  only_lf_breaks (Py.join Py.nl lines) = true.
Proof.
  unfold Py.join. induction 1 as [|line lines Hline Hlines IH];
    [reflexivity|].
  cbn [String.concat]. destruct lines as [|line' lines].
  - apply no_break_only_lf, Hline.
  - rewrite !only_lf_breaks_app, IH, (no_break_only_lf line Hline).
    reflexivity.
Qed.

Lemma foreign_break_is_linebreak (c : ascii) :
  foreign_break c = true → Py.is_linebreak c = true ∧ Py.is_lf c = false.
Proof.
  destruct c as [[] [] [] [] [] [] [] []]; vm_compute; intros H;
    first [discriminate H | split; reflexivity].
Qed.

Lemma only_lf_no_foreign_breaks (s : string) :
  only_lf_breaks s = true → no_foreign_breaks s = true.
Proof.
  induction s as [|c s IH]; [reflexivity|].
  cbn [only_lf_breaks no_foreign_breaks].
  intros [Hc Hs]%andb_true_iff. rewrite (IH Hs), andb_true_r.
  destruct (foreign_break c) eqn:Hf; [|reflexivity].
  destruct (foreign_break_is_linebreak c Hf) as [Hb Hlf].
  rewrite Hb, Hlf in Hc. discriminate.
Qed.

Lemma markdown_source_only_lf (mdcontent : string) (strip_indent : Z)
    (lstrip : bool) :
  strip_indent ≠ 0%Z ∨ lstrip = true →
  only_lf_breaks (markdown_source mdcontent strip_indent lstrip) = true.
Proof.
  intros Hopt. unfold markdown_source.
  assert (∀ (f : string → string) (s : string),
            (∀ line, no_break line = true → no_break (f line) = true) →
            only_lf_breaks (Py.join Py.nl (map f (Py.splitlines s))) = true)
    as Hpass.
  { intros f s Hf. apply join_nl_only_lf, Forall_map.
    eapply Forall_impl; [apply splitlines_no_break|]. exact Hf. }
  destruct lstrip.
  - apply Hpass. apply lstrip_no_break.
  - destruct Hopt as [Hn|]; [|discriminate].
    destruct (Z.eqb_spec strip_indent 0); [contradiction|].
    apply Hpass. apply strip_indent_line_no_break.
Qed.

(** X12: as soon as [strip_indent] is non-zero or [lstrip] is set, the
    Markdown source sent holds none of the characters CR, VT, FF, FS, GS,
    RS and NEL (code points 13, 11, 12, 28, 29, 30 and 133): the content
    is split at the boundaries of [str.splitlines] and joined again with
    line feeds.  On a content of three lines ended by CR LF, CR and LF the
    two boundaries inside become one line feed each and the final one is
    dropped.  With neither option the content is sent as it is. *)
Theorem stripping_normalizes_line_breaks (mdcontent : string)
    (strip_indent : Z) (lstrip : bool) :
  (strip_indent ≠ 0%Z ∨ lstrip = true →
     no_foreign_breaks (markdown_source mdcontent strip_indent lstrip) = true)
  ∧ markdown_source mdcontent 0 false = mdcontent
  ∧ markdown_source mixed_breaks 0 true = "a
b
c"
  ∧ markdown_source mixed_breaks 1 false = "a
b
c"
  ∧ no_foreign_breaks mixed_breaks = false.
Proof.
  repeat apply conj; try reflexivity.
  intros Hopt. apply only_lf_no_foreign_breaks, markdown_source_only_lf, Hopt.
Qed.

Lemma stripping_normalizes_line_breaks_witness :
  no_foreign_breaks (markdown_source mixed_breaks 0 true) = true.
Proof.
  exact (proj1 (stripping_normalizes_line_breaks mixed_breaks 0 true)
           (or_intror eq_refl)).
Defined.

(** * Further properties of the file payload and the anchor tag *)

Lemma enc_sextet_b64_char (i : Z) : is_b64_char (Base64.enc_sextet i) = true.
Proof.
  unfold Base64.enc_sextet. generalize (Z.to_nat i) as n. intros n.
  do 64 (destruct n as [|n]; [vm_compute; reflexivity|]).
  vm_compute. reflexivity.
Qed.

Lemma string_of_list_byte_length (bs : list Byte.byte) :
  String.length (string_of_list_byte bs) = length bs.
Proof.
  unfold string_of_list_byte. induction bs as [|b bs IH]; [reflexivity|].
  cbn [map string_of_list_ascii String.length]. rewrite IH. reflexivity.
Qed.

(** X13: the payload [put_file] transmits for a content of [n] bytes has
    [4 * ceil(n / 3)] characters, so its length is a multiple of four, and
    every character is one of the 64 characters of the base64 alphabet or
    the padding character [=]; two different contents never give the same
    payload. *)
Theorem put_file_payload_shape (content : list Byte.byte) :
  String.length (b64_text content) = (4 * ((length content + 2) / 3))%nat
  ∧ Forall (λ b, is_b64_char b = true) (Base64.b64encode content)
  ∧ (∀ content', b64_text content = b64_text content' → content = content').
Proof.
  repeat apply conj.
  - unfold b64_text. rewrite string_of_list_byte_length.
    induction content as [|a|a b|a b c rest IH] using Base64Facts.list_ind3;
      try reflexivity.
    cbn [Base64.b64encode length]. rewrite IH.
    replace (S (S (S (length rest))) + 2)%nat
      with (length rest + 2 + 1 * 3)%nat by lia.
    rewrite Nat.div_add by lia. lia.
  - induction content as [|a|a b|a b c rest IH] using Base64Facts.list_ind3;
      cbn [Base64.b64encode];
      repeat first [apply Forall_nil_2 | apply Forall_cons_2];
      auto using enc_sextet_b64_char.
  - intros content' Heq.
    destruct (Base64Facts.b64_text_roundtrip content) as [_ Hback].
    destruct (Base64Facts.b64_text_roundtrip content') as [_ Hback'].
    rewrite Heq in Hback. congruence.
Qed.

Lemma append_same_prefix (p a b : string) : p +:+ a = p +:+ b → a = b.
Proof.
  induction p as [|c p IH]; intros Heq; [exact Heq|].
  change (String c (p +:+ a) = String c (p +:+ b)) in Heq.
  injection Heq as Heq. apply IH, Heq.
Qed.

(** X14: distinct anchor names get distinct tags, and a tag is never the
    empty string; so two anchors never collide after tagging, and a tagged
    name is never mistaken for an absent argument. *)
Theorem anchor_tag_injective (n m : string) :
  (_AnchorTPL n = _AnchorTPL m ↔ n = m)
  ∧ Py.truthy_str (_AnchorTPL n) = true
  ∧ String.length (_AnchorTPL n) = (15 + String.length n)%nat.
Proof.
  repeat apply conj; try reflexivity.
  - apply append_same_prefix.
  - intros ->. reflexivity.
Qed.

(** * Stripping only removes characters *)

Lemma length_append (a b : string) :
  String.length (a +:+ b) = (String.length a + String.length b)%nat.
Proof.
  induction a as [|c a IH]; [reflexivity|].
  change (String c a +:+ b) with (String c (a +:+ b)).
  cbn [String.length]. rewrite IH. reflexivity.
Qed.

Lemma join_cons_length (line : string) (lines : list string) :
  (String.length (Py.join Py.nl (line :: lines))
   ≤ String.length line + 1 + String.length (Py.join Py.nl lines))%nat.
Proof.
  unfold Py.join. cbn [String.concat]. destruct lines as [|line' lines].
  - cbn [String.length]. lia.
  - rewrite !length_append. cbn [Py.nl String.length]. lia.
Qed.

Lemma splitlines_from_two (cur : string) (c a : ascii) (s : string) :
  Py.splitlines_from cur (String c (String a s)) =
  if Py.is_linebreak c then
    cur :: (if Py.is_cr c && Py.is_lf a
            then Py.splitlines_from EmptyString s
            else Py.splitlines_from EmptyString (String a s))
  else Py.splitlines_from (cur +:+ String c EmptyString) (String a s).
Proof. reflexivity. Qed.

Lemma splitlines_from_length (s : string) :
  (∀ cur,
     (String.length (Py.join Py.nl (Py.splitlines_from cur s))
      ≤ String.length cur + String.length s)%nat)
  ∧ (∀ c cur,
       (String.length (Py.join Py.nl (Py.splitlines_from cur (String c s)))
        ≤ String.length cur + S (String.length s))%nat).
Proof.
  induction s as [|a s [IH1 IH2]].
  - assert (∀ cur,
              (String.length
                 (Py.join Py.nl (Py.splitlines_from cur EmptyString))
               ≤ String.length cur + 0)%nat) as Hempty.
    { intros [|c cur]; cbn; lia. }
    split; [exact Hempty|].
    intros c cur. cbn [Py.splitlines_from].
    destruct (Py.is_linebreak c).
    + unfold Py.join. cbn [String.concat String.length]. lia.
    + etransitivity; [exact (Hempty (cur +:+ String c EmptyString))|].
      rewrite length_append. cbn [String.length]. lia.
  - split; [intros cur; apply IH2|].
    intros c cur. rewrite splitlines_from_two.
    destruct (Py.is_linebreak c).
    + etransitivity; [apply join_cons_length|].
      destruct (Py.is_cr c && Py.is_lf a).
      * specialize (IH1 EmptyString). cbn [String.length] in *. lia.
      * specialize (IH2 a EmptyString). cbn [String.length] in *. lia.
    + specialize (IH2 a (cur +:+ String c EmptyString)).
      rewrite length_append in IH2. cbn [String.length] in *. lia.
Qed.

Lemma join_map_length (f : string → string) (lines : list string) :
  (∀ line, (String.length (f line) ≤ String.length line)%nat) →
  (String.length (Py.join Py.nl (map f lines))
   ≤ String.length (Py.join Py.nl lines))%nat.
Proof.
  intros Hf. unfold Py.join.
  induction lines as [|line lines IH]; [reflexivity|].
  cbn [map String.concat]. destruct lines as [|line' lines].
  - apply Hf.
  - cbn [map] in *. rewrite !length_append.
    pose proof (Hf line). lia.
Qed.

Lemma str_drop_length (k : nat) (s : string) :
  (String.length (Py.str_drop k s) ≤ String.length s)%nat.
Proof.
  revert s. induction k as [|k IH]; intros [|c s]; cbn [Py.str_drop];
    try lia.
  specialize (IH s). cbn [String.length]. lia.
Qed.

Lemma strip_indent_line_length (n : Z) (line : string) :
  (String.length (strip_indent_line n line) ≤ String.length line)%nat.
Proof.
  unfold strip_indent_line. destruct (String.eqb _ _); [|lia].
  apply str_drop_length.
Qed.

Lemma stripping_pass_length (f : string → string) (s : string) :
  (∀ line, (String.length (f line) ≤ String.length line)%nat) →
  (String.length (Py.join Py.nl (map f (Py.splitlines s)))
   ≤ String.length s)%nat.
Proof.
  intros Hf. etransitivity; [apply join_map_length, Hf|].
  pose proof (proj1 (splitlines_from_length s) EmptyString) as H.
  exact H.
Qed.

(** X15: the stripping passes of [put_markdown] only remove characters:
    whatever the options, the Markdown source sent is never longer than
    the content given, and the text a line keeps under [lstrip] or
    [strip_indent] is a suffix of that line. *)
Theorem stripping_never_lengthens (mdcontent : string) (strip_indent : Z)
    (lstrip : bool) :
  (String.length (markdown_source mdcontent strip_indent lstrip)
   ≤ String.length mdcontent)%nat
  ∧ (∀ line, ∃ removed, line = removed +:+ strip_indent_line strip_indent line)
  ∧ (∀ line, ∃ removed, line = removed +:+ Py.lstrip line).
Proof.
  repeat apply conj.
  - unfold markdown_source.
    assert (String.length
              (if (strip_indent =? 0)%Z then mdcontent
               else Py.join Py.nl
                      (map (strip_indent_line strip_indent)
                         (Py.splitlines mdcontent)))
            ≤ String.length mdcontent)%nat as Hfirst.
    { destruct (strip_indent =? 0)%Z; [lia|].
      apply stripping_pass_length, strip_indent_line_length. }
    destruct lstrip; [|exact Hfirst].
    etransitivity; [|exact Hfirst].
    apply stripping_pass_length, lstrip_length.
  - intros line. unfold strip_indent_line.
    destruct (String.eqb _ _).
    + eexists. symmetry. apply str_take_drop.
    + exists EmptyString. reflexivity.
  - intros line. destruct (lstrip_removes_prefix line) as (ws & Hws & _).
    eauto.
Qed.

(** * The header only orders the columns *)

(** X9: with a non-empty header and two or more [dict] rows, the names in
    [header] are not part of the table sent: they only select and order the
    cells.  The header line of the Markdown table is made of the values of
    the first row, the separator has one [----] per header name, and every
    further row gives one line of its values in header order.  The
    projected rows are a new list; the caller's list is as it was. *)
Theorem put_table_header_orders_columns (l : loc) (k : string)
    (header : list string) (r1 r2 : row) (rest : list row)
    (anchor before after : option string) (w : world) :
  lists w !! l = Some (r1 :: r2 :: rest) →
  forallb is_dict_row (r1 :: r2 :: rest) = true →
  let columns := k :: header in
  let line := λ r, table_line (map quote (projected_cells columns r)) in
  let source :=
    Py.join Py.nl
      (line r1 :: table_line (repeat "----" (length columns))
         :: map line (r2 :: rest)) in
  let w1 :=
    set_list (fresh (dom (lists w)))
      (map (λ r, RList (projected_cells columns r)) (r1 :: r2 :: rest)) w in
  put_table l (Some columns) anchor before after w
  = content_outcome (active_ws w) before after
      (build_spec "markdown" anchor before after
         {[ "content" := VStr source ]}) w1
  ∧ lists w1 !! l = Some (r1 :: r2 :: rest).
Proof.
  intros Hl Hall columns line source w1. subst line source w1 columns.
  split.
  - rewrite put_table_run.
    rewrite (table_source_header l (k :: header) (r1 :: r2 :: rest) w
               eq_refl Hl).
    rewrite project_rows_dicts, Hall. cbn zeta.
    rewrite (table_source_no_header _ None _ _ eq_refl
               (lookup_insert_eq _ _ _)).
    unfold table_markdown. cbn [map iter_row drop app].
    pose proof (projected_cells_length (k :: header) _ Hall) as Hlen.
    apply Forall_cons in Hlen as [Hlen _]. rewrite Hlen.
    rewrite List.map_map. reflexivity.
  - cbn [set_list lists]. rewrite lookup_insert_ne; [exact Hl|].
    eapply fresh_loc_ne. exact Hl.
Qed.

Lemma put_table_header_orders_columns_witness :
  (put_table 0%nat (Some ["b"; "a"]) None None None
     (sample_world ab_dict_rows)).1 = Ok ()
  ∧ outbox (put_table 0%nat (Some ["b"; "a"]) None None None
              (sample_world ab_dict_rows)).2
    = [(1%nat,
        envelope "output"
          (build_spec "markdown" None None None
             {[ "content" := VStr "|2|1|
|----|----|
|4|3|" ]}))].
Proof.
  pose proof (put_table_header_orders_columns 0%nat "b" ["a"]
                (RDict [("a", CInt 1); ("b", CInt 2)])
                (RDict [("a", CInt 3); ("b", CInt 4)]) []
                None None None (sample_world ab_dict_rows)
                eq_refl eq_refl) as H.
  cbv zeta in H. destruct H as [H _].
  rewrite H. split; reflexivity.
Defined.

(** * Pipe escaping is reversible *)

Lemma replace_pipe_head (s : string) :
  match Py.replace_char "|" "\|" s with
  | String c _ => c ≠ "|"%char
  | EmptyString => True
  end.
Proof.
  destruct s as [|c s]; [exact I|]. cbn [Py.replace_char].
  destruct (Ascii.eqb_spec c "|") as [->|Hc]; [discriminate | exact Hc].
Qed.

Lemma unescape_replace_pipe (s : string) :
  unescape_pipe (Py.replace_char "|" "\|" s) = s.
Proof.
  induction s as [|c s IH]; [reflexivity|]. cbn [Py.replace_char].
  destruct (Ascii.eqb_spec c "|") as [->|Hc].
  - change ("\|" +:+ Py.replace_char "|" "\|" s)
      with (String "\" (String "|" (Py.replace_char "|" "\|" s))).
    cbn [unescape_pipe]. rewrite IH. reflexivity.
  - pose proof (replace_pipe_head s) as Hhead.
    cbn [unescape_pipe].
    destruct (Py.replace_char "|" "\|" s) as [|c' rest] eqn:Hrep.
    + cbn [unescape_pipe] in IH. rewrite <- IH. reflexivity.
    + destruct (Ascii.eqb_spec c' "|") as [->|_]; [contradiction|].
      rewrite andb_false_r, IH. reflexivity.
Qed.

Lemma replace_pipe_escaped (escaped : bool) (s : string) :
  pipes_escaped escaped (Py.replace_char "|" "\|" s) = true.
Proof.
  revert escaped. induction s as [|c s IH]; intros escaped; [reflexivity|].
  cbn [Py.replace_char].
  destruct (Ascii.eqb_spec c "|") as [->|Hc].
  - change ("\|" +:+ Py.replace_char "|" "\|" s)
      with (String "\" (String "|" (Py.replace_char "|" "\|" s))).
    cbn [pipes_escaped]. rewrite IH. reflexivity.
  - cbn [pipes_escaped]. rewrite IH.
    destruct (Ascii.eqb_spec c "|"); [contradiction | reflexivity].
Qed.

(** X2: the pipe escaping of [put_table] is reversible.  In the text
    [quote] gives for a cell every [|] comes right after a backslash, and
    removing the backslash before each [|] gives back the text of the
    cell; so cells with different texts are written differently.  The cell
    [a|b] is written [a\|b]. *)
Theorem pipe_escaping_reversible (data : cell) :
  pipes_escaped false (quote data) = true
  ∧ unescape_pipe (quote data) = str data
  ∧ (∀ data', quote data = quote data' → str data = str data')
  ∧ quote (CStr "a|b") = "a\|b".
Proof.
  unfold quote. repeat apply conj.
  - apply replace_pipe_escaped.
  - apply unescape_replace_pipe.
  - intros data' Heq.
    rewrite <- (unescape_replace_pipe (str data)), Heq.
    apply unescape_replace_pipe.
  - reflexivity.
Qed.
